(** * ROI projector: estimator, pattern aggregator and insight generator

    A shallow embedding of [app.py] (the [/api/calculate] handler) and of
    [cip_engine_roi.py] (class [CIPEngineROI]), with the properties the
    specification states about them.

    Modelling conventions.
    - Python [int] is [Z].  The estimator is given twice.  [Estimator] is
      its exact-arithmetic reading: floats and the SQL numeric columns are
      exact rationals [Q], compared with [==] (Qeq), no operation rounds
      and none overflows.  [EstimatorB64] is the handler on binary64
      floats, with the rounding of every operation and the exceptions of
      the conversions.  What is stated of [Estimator] is a statement in
      exact arithmetic.
    - Python [str] is [string] (a sequence of 8-bit characters); [str.lower]
      is the ASCII lowering.  [None] is [None] of an [option].
    - The PostgreSQL tables are explicit state: [roi_projections] and
      [roi_insights] are lists of rows in insertion order, [roi_patterns] is
      a finite map on its unique key [(pattern_type, pattern_data)].
    - [NOW()], the session token and the formatted free texts (the
      recommendation sentence, the insight sentence) are not modelled; the
      recommendation is represented by its tier and its next steps. *)

From Stdlib Require Import ZArith QArith Qround Qfield Lqa String Ascii List Bool Lia Permutation.
From Stdlib Require Import Sorted DecimalString.
From Stdlib Require SpecFloat.
From stdpp Require Import gmap strings.
Import ListNotations.

Local Open Scope Z_scope.

(** ** Python primitives *)

Module Py.

(** [str.lower] on one character: "A".."Z" are moved to "a".."z". *)
Definition lower_ascii (c : ascii) : ascii :=
  let n := nat_of_ascii c in
  if (Nat.leb 65 n && Nat.leb n 90)%bool then ascii_of_nat (n + 32) else c.

Fixpoint lower (s : string) : string :=
  match s with
  | EmptyString => EmptyString
  | String c t => String (lower_ascii c) (lower t)
  end.

(** [needle in hay] on strings: [needle] occurs as a substring. *)
Fixpoint contains (needle hay : string) : bool :=
  String.prefix needle hay ||
  match hay with
  | EmptyString => false
  | String _ t => contains needle t
  end.

(** [x in [a, b, ...]] on a list of strings. *)
Definition in_list (x : string) (l : list string) : bool :=
  existsb (String.eqb x) l.

(** Truth value of a string, and of an optional string ([None] is false). *)
Definition truthy (s : string) : bool :=
  match s with EmptyString => false | _ => true end.

Definition truthy_opt (o : option string) : bool :=
  match o with None => false | Some s => truthy s end.

(** Comparisons on rationals as booleans. *)
Definition Qgtb (x y : Q) : bool :=
  match (x ?= y)%Q with Gt => true | _ => false end.

Definition Qltb (x y : Q) : bool :=
  match (x ?= y)%Q with Lt => true | _ => false end.

(** Truth value of a number: non-zero. *)
Definition Qtruthy (x : Q) : bool := negb (Qeq_bool x 0).

(** [round(x)] with one argument: the nearest integer, a tie going to the
    even neighbour. *)
Definition round (x : Q) : Z :=
  let f := Qfloor x in
  match ((x - inject_Z f) ?= (1 # 2))%Q with
  | Lt => f
  | Gt => f + 1
  | Eq => if Z.even f then f else f + 1
  end.

End Py.

(** ** The estimator: [calculate_roi] of [app.py] *)

Module Estimator.

(** The fields the handler reads from the request body, after the
    conversions [int(...)] and [float(...)] and the defaults of [data.get]. *)
Record ProjectionInput := {
  company_name : string;
  industry : option string;
  email : option string;
  process_name : option string;
  hours_per_week : Z;
  people_count : Z;
  hourly_cost : Q;
  current_tools_cost : Q;
  timeline_expectation : option string
}.

Inductive RiskLevel := High | Medium | Low.

(** The four branches of the recommendation, in the order of the code. *)
Inductive Tier := StrongROI | GoodROI | ModerateROI | ROIConcerns.

(** The values the handler computes, at full precision. *)
Record ProjectionResult := {
  weekly_cost : Q;
  annual_labor_cost : Q;
  annual_tools_cost : Q;
  annual_cost_current : Q;
  automation_percentage : Q;
  complexity_score : Z;
  implementation_cost : Z;
  monthly_ai_cost : Z;
  annual_ai_cost : Z;
  hours_automated_weekly : Q;
  annual_labor_savings : Q;
  annual_cost_with_ai : Z;
  annual_savings : Q;
  roi_percentage : Q;
  breakeven_months : Z;
  risk_level : RiskLevel;
  recommendation : Tier;
  next_steps : list string;
  industry_note : string
}.

Inductive Response (A : Type) :=
| Ok (a : A)
| BadRequest (msg : string).
Arguments Ok {A} a.
Arguments BadRequest {A} msg.

Definition the_automation_percentage : Q := 65 # 100.

(** The four conditions that raise the complexity score. *)
Definition high_volume (hours : Z) : bool := 40 <? hours.
Definition many_stakeholders (people : Z) : bool := 5 <? people.
Definition data_process (name : string) : bool :=
  Py.contains "data" (Py.lower name) || Py.contains "analysis" (Py.lower name).
Definition customer_facing (name : string) : bool :=
  Py.contains "customer" (Py.lower name) || Py.contains "support" (Py.lower name).

Definition complexity (hours people : Z) (name : string) : Z :=
  let s := 0 in
  let s := if high_volume hours then s + 2 else s in
  let s := if many_stakeholders people then s + 2 else s in
  let s := if data_process name then s + 1 else s in
  let s := if customer_facing name then s + 1 else s in
  s.

Definition implementation_cost_of (score : Z) : Z :=
  if score <=? 2 then 8000
  else if score <=? 4 then 12000
  else 18000.

Definition monthly_ai_cost_of (hours : Z) : Z :=
  if hours <? 20 then 200
  else if hours <? 40 then 400
  else 800.

(** Exact arithmetic: the quotient is rounded once, by [round]; the code
    rounds the quotient and the product to floats first, see
    [EstimatorB64.breakeven_of]. *)
Definition breakeven_of (implementation : Z) (savings : Q) : Z :=
  if Py.Qgtb savings 0
  then Z.max 1 (Py.round ((inject_Z implementation / savings) * 12)%Q)
  else 999.

Definition risk_of (automation : Q) (breakeven score : Z) (savings : Q)
    (implementation : Z) : RiskLevel :=
  if Py.Qgtb automation (8 # 10) then High
  else if 18 <? breakeven then High
  else if 5 <? score then Medium
  else if Py.Qltb savings (inject_Z implementation) then High
  else Low.

Definition tier_of (roi : Q) (breakeven : Z) : Tier :=
  if Py.Qgtb roi 200 && (breakeven <=? 12) then StrongROI
  else if Py.Qgtb roi 100 && (breakeven <=? 18) then GoodROI
  else if Py.Qgtb roi 50 then ModerateROI
  else ROIConcerns.

Definition next_steps_of (t : Tier) : list string :=
  match t with
  | StrongROI =>
      [ "Schedule discovery call to validate assumptions";
        "Review process documentation";
        "Create detailed technical architecture";
        "Start with pilot (1-2 workflows) before full rollout" ]
  | GoodROI =>
      [ "Document current process in detail";
        "Identify edge cases AI will struggle with";
        "Consider starting with subset of work";
        "Plan for human oversight layer" ]
  | ModerateROI =>
      [ "Start with smallest viable automation";
        "Prove ROI with pilot before full implementation";
        "Consider process optimization first (cheaper than AI)";
        "Ensure team is ready for change" ]
  | ROIConcerns =>
      [ "Look for higher-ROI processes first";
        "Consider process improvement before automation";
        "Revisit when process volume increases";
        "Explore simpler no-code tools first" ]
  end%string.

Definition compliance_industries : list string :=
  ["healthcare"; "finance"; "legal"]%string.
Definition conservative_industries : list string :=
  ["logistics"; "manufacturing"]%string.
Definition fast_roi_industries : list string :=
  ["retail"; "ecommerce"]%string.

(** The three notes, as functions of the industry as it was typed. *)
Definition compliance_note (ind : string) : string :=
  ("Note: " ++ ind ++
   " has compliance requirements that may add 20-30% to implementation cost and timeline.")%string.
Definition conservative_note (ind : string) : string :=
  ("Note: " ++ ind ++
   " automation typically sees 70-80% efficiency gains - your projection may be conservative.")%string.
Definition fast_roi_note (ind : string) : string :=
  ("Note: " ++ ind ++ " AI automation has proven ROI - fast implementation typical.")%string.

Definition industry_note_of (industry : option string) : string :=
  match industry with
  | None => EmptyString
  | Some ind =>
      if Py.truthy ind then
        if Py.in_list (Py.lower ind) compliance_industries then compliance_note ind
        else if Py.in_list (Py.lower ind) conservative_industries then conservative_note ind
        else if Py.in_list (Py.lower ind) fast_roi_industries then fast_roi_note ind
        else EmptyString
      else EmptyString
  end.

(** The computation of the handler once the request is accepted, in exact
    arithmetic; [name] is the (non-empty) process name.  The rounding of
    the float operations and the OverflowError of an integer too large for
    a float are in [EstimatorB64.calculate_roi]. *)
Definition project (data : ProjectionInput) (name : string) : ProjectionResult :=
  let hours := hours_per_week data in
  let people := people_count data in
  let weekly := (inject_Z hours * hourly_cost data * inject_Z people)%Q in
  let labor := (weekly * 52)%Q in
  let tools := (current_tools_cost data * 12)%Q in
  let current := (labor + tools)%Q in
  let automation := the_automation_percentage in
  let score := complexity hours people name in
  let implementation := implementation_cost_of score in
  let monthly := monthly_ai_cost_of hours in
  let annual_ai := monthly * 12 in
  let automated := (inject_Z hours * automation)%Q in
  let labor_savings := (automated * hourly_cost data * inject_Z people * 52)%Q in
  let with_ai := annual_ai in
  let savings := (current - inject_Z with_ai)%Q in
  let roi := (((savings - inject_Z implementation) / inject_Z implementation) * 100)%Q in
  let breakeven := breakeven_of implementation savings in
  let risk := risk_of automation breakeven score savings implementation in
  let tier := tier_of roi breakeven in
  {| weekly_cost := weekly;
     annual_labor_cost := labor;
     annual_tools_cost := tools;
     annual_cost_current := current;
     automation_percentage := automation;
     complexity_score := score;
     implementation_cost := implementation;
     monthly_ai_cost := monthly;
     annual_ai_cost := annual_ai;
     hours_automated_weekly := automated;
     annual_labor_savings := labor_savings;
     annual_cost_with_ai := with_ai;
     annual_savings := savings;
     roi_percentage := roi;
     breakeven_months := breakeven;
     risk_level := risk;
     recommendation := tier;
     next_steps := next_steps_of tier;
     industry_note := industry_note_of (industry data) |}.

(** [calculate_roi] in exact arithmetic: the request is refused when the
    process name is missing or empty, or the hours or the hourly cost are
    zero; every other one is projected (in the code, unless an integer is
    too large for a float, see [EstimatorB64.calculate_roi]). *)
Definition calculate_roi (data : ProjectionInput) : Response ProjectionResult :=
  match process_name data with
  | None => BadRequest "Missing required fields"
  | Some name =>
      if negb (Py.truthy name) || (hours_per_week data =? 0)
         || Qeq_bool (hourly_cost data) 0
      then BadRequest "Missing required fields"
      else Ok (project data name)
  end.

(** The example of the specification. *)
Definition invoice_processing : ProjectionInput :=
  {| company_name := "Anonymous";
     industry := None;
     email := None;
     process_name := Some "Invoice Processing"%string;
     hours_per_week := 30;
     people_count := 2;
     hourly_cost := 40;
     current_tools_cost := 0;
     timeline_expectation := None |}.

(** A request whose labour and tools cost nothing: it saves nothing. *)
Definition idle_process : ProjectionInput :=
  {| company_name := "Anonymous";
     industry := Some "Retail"%string;
     email := None;
     process_name := Some "Filing"%string;
     hours_per_week := 10;
     people_count := 0;
     hourly_cost := 20;
     current_tools_cost := 0;
     timeline_expectation := None |}.

(** A request that meets the four conditions of the complexity score. *)
Definition support_desk : ProjectionInput :=
  {| company_name := "Anonymous";
     industry := Some "Healthcare"%string;
     email := None;
     process_name := Some "Customer Support Data Analysis"%string;
     hours_per_week := 45;
     people_count := 6;
     hourly_cost := 30;
     current_tools_cost := 100;
     timeline_expectation := None |}.

End Estimator.

(** ** The shared store *)

Module Store.

(** A row of [roi_projections], with the columns the learning engine reads. *)
Record ProjectionRow := {
  row_process_name : string;
  row_industry : option string;
  row_annual_savings : Q;
  row_roi_percentage : Q
}.

(** The argument of [json.dumps] for a pattern key: a flat object whose
    values are strings or integers.  Two keys are the same row of
    [roi_patterns] exactly when the objects are the same. *)
Inductive json_value :=
| JString (s : string)
| JNumber (n : Z).

#[export] Instance json_value_eq_dec : EqDecision json_value.
Proof. solve_decision. Defined.

#[export] Instance json_value_countable : Countable json_value.
Proof.
  refine (inj_countable'
            (fun v => match v with JString s => inl s | JNumber n => inr n end)
            (fun x => match x with inl s => JString s | inr n => JNumber n end) _).
  intros []; reflexivity.
Defined.

Abbreviation json_object := (list (string * json_value)).

(** The unique key of [roi_patterns]: [(pattern_type, pattern_data)]. *)
Abbreviation pattern_key := (string * json_object)%type.

(** Modelled from the spec: the schema of the tables ([schema.sql]) is not
    among the sources.  A pattern has the fields of the data model of the
    specification, [frequency], [avg_savings], [avg_roi] (and
    [last_updated], a time, left out), the averages being exact numbers;
    the unique key is the one the [ON CONFLICT] clause of the engine
    names. *)
Record Pattern := {
  frequency : Z;
  avg_savings : Q;
  avg_roi : Q
}.

Record Insight := {
  insight_type : string;
  confidence : Q;
  supporting_subject : string;
  supporting_avg_roi : Q;
  supporting_avg_savings : Q;
  supporting_count : Z
}.

Record Database := {
  roi_projections : list ProjectionRow;
  roi_patterns : gmap pattern_key Pattern;
  roi_insights : list Insight
}.

Definition empty_db : Database :=
  {| roi_projections := []; roi_patterns := ∅; roi_insights := [] |}.

End Store.

(** ** The learning engine: class [CIPEngineROI] *)

Module CIPEngineROI.
Import Store.

(** The dictionary [calculate_roi] passes to [log_patterns]. *)
Record ProjectionData := {
  industry : option string;
  process_name : string;
  annual_savings : Q;
  roi_percentage : Q
}.

(** [INSERT ... VALUES (pattern_type, key, 1, savings, roi)
     ON CONFLICT (pattern_type, pattern_data) DO UPDATE SET ...]. *)
Definition upsert (key : pattern_key) (savings roi : Q)
    (tbl : gmap pattern_key Pattern) : gmap pattern_key Pattern :=
  match tbl !! key with
  | None =>
      <[key := {| frequency := 1; avg_savings := savings; avg_roi := roi |}]> tbl
  | Some old =>
      let f := frequency old in
      <[key :=
          {| frequency := f + 1;
             avg_savings := ((avg_savings old * inject_Z f + savings) / inject_Z (f + 1))%Q;
             avg_roi := ((avg_roi old * inject_Z f + roi) / inject_Z (f + 1))%Q |}]> tbl
  end.

Definition industry_key (ind : string) : pattern_key :=
  ("industry_roi"%string, [("industry"%string, JString ind)]).
Definition process_key (name : string) : pattern_key :=
  ("process_savings"%string, [("process"%string, JString name)]).
Definition high_value_key : pattern_key :=
  ("high_value"%string,
   [("type"%string, JString "high_value"); ("threshold"%string, JNumber 50000)]).

(** The three statements [log_patterns] runs on [roi_patterns]. *)
Definition log_industry (pd : ProjectionData) (tbl : gmap pattern_key Pattern) :=
  match industry pd with
  | Some ind =>
      if Py.truthy ind && Py.Qtruthy (annual_savings pd) && Py.Qtruthy (roi_percentage pd)
      then upsert (industry_key ind) (annual_savings pd) (roi_percentage pd) tbl
      else tbl
  | None => tbl
  end.

Definition log_process (pd : ProjectionData) (tbl : gmap pattern_key Pattern) :=
  if Py.truthy (process_name pd) && Py.Qtruthy (annual_savings pd)
  then upsert (process_key (process_name pd))
              (annual_savings pd) (roi_percentage pd) tbl
  else tbl.

Definition log_high_value (pd : ProjectionData) (tbl : gmap pattern_key Pattern) :=
  if Py.Qtruthy (annual_savings pd) && Py.Qgtb (annual_savings pd) 50000
  then upsert high_value_key (annual_savings pd) (roi_percentage pd) tbl
  else tbl.

Definition log_rows (pd : ProjectionData) (tbl : gmap pattern_key Pattern) :=
  log_high_value pd (log_process pd (log_industry pd tbl)).

(** *** [analyze_patterns] *)

(** One row of a [GROUP BY] query: the group, [COUNT( * )] and the two
    averages. *)
Record Aggregate := {
  agg_key : string;
  agg_count : Z;
  agg_avg_savings : Q;
  agg_avg_roi : Q
}.

Definition Qsum (l : list Q) : Q := foldr Qplus 0%Q l.

(** [AVG] over a non-empty group. *)
Definition avg (l : list Q) : Q := (Qsum l / inject_Z (Z.of_nat (length l)))%Q.

Definition aggregate (k : string) (rows : list ProjectionRow) : Aggregate :=
  {| agg_key := k;
     agg_count := Z.of_nat (length rows);
     agg_avg_savings := avg (map row_annual_savings rows);
     agg_avg_roi := avg (map row_roi_percentage rows) |}.

(** [GROUP BY key]: one aggregate per distinct value of the column, the
    rows with a NULL key having been removed by the caller. *)
Definition group_by (key : ProjectionRow -> option string)
    (rows : list ProjectionRow) : list Aggregate :=
  map (fun k => aggregate k (filter (fun r => key r = Some k) rows))
      (remove_dups (omap key rows)).

(** [ORDER BY field DESC]: a stable insertion sort.  SQL leaves the order
    of rows with equal values open; here they stay in the order of the
    grouping. *)
Fixpoint insert_desc (field : Aggregate -> Q) (a : Aggregate) (l : list Aggregate) :=
  match l with
  | [] => [a]
  | b :: t =>
      if Qle_bool (field b) (field a) then a :: b :: t
      else b :: insert_desc field a t
  end.

Definition order_by_desc (field : Aggregate -> Q) (l : list Aggregate) :=
  foldr (insert_desc field) [] l.

(** [SELECT ... GROUP BY key HAVING COUNT( * ) >= 3 ORDER BY field DESC LIMIT 5]. *)
Definition top_groups (key : ProjectionRow -> option string)
    (field : Aggregate -> Q) (rows : list ProjectionRow) : list Aggregate :=
  take 5 (order_by_desc field
            (filter (fun a => 3 <= agg_count a) (group_by key rows))).

(** [process_name] is never NULL; [industry] may be. *)
Definition process_column (r : ProjectionRow) : option string :=
  Some (row_process_name r).

Definition top_processes (rows : list ProjectionRow) : list Aggregate :=
  top_groups process_column agg_avg_roi rows.

Definition top_industries (rows : list ProjectionRow) : list Aggregate :=
  top_groups row_industry agg_avg_savings rows.

Definition process_insight (best : Aggregate) : Insight :=
  {| insight_type := "best_roi_process";
     confidence := 95 # 100;
     supporting_subject := agg_key best;
     supporting_avg_roi := agg_avg_roi best;
     supporting_avg_savings := agg_avg_savings best;
     supporting_count := agg_count best |}.

Definition industry_insight (best : Aggregate) : Insight :=
  {| insight_type := "best_savings_industry";
     confidence := 90 # 100;
     supporting_subject := agg_key best;
     supporting_avg_roi := agg_avg_roi best;
     supporting_avg_savings := agg_avg_savings best;
     supporting_count := agg_count best |}.

(** The insights one run of [analyze_patterns] inserts, in order. *)
Definition new_insights (rows : list ProjectionRow) : list Insight :=
  match top_processes rows with
  | best :: _ => [process_insight best]
  | [] => []
  end ++
  match top_industries rows with
  | best :: _ => [industry_insight best]
  | [] => []
  end.

Definition analyze_patterns (db : Database) : Database :=
  {| roi_projections := roi_projections db;
     roi_patterns := roi_patterns db;
     roi_insights := roi_insights db ++ new_insights (roi_projections db) |}.

Definition check_analysis_trigger (db : Database) : Database :=
  let count := Z.of_nat (length (roi_projections db)) in
  if count mod 10 =? 0 then analyze_patterns db else db.

Definition log_patterns (pd : ProjectionData) (db : Database) : Database :=
  check_analysis_trigger
    {| roi_projections := roi_projections db;
       roi_patterns := log_rows pd (roi_patterns db);
       roi_insights := roi_insights db |}.

End CIPEngineROI.

(** ** The handler of [/api/calculate]: estimate, store, log *)

Module Handler.
Import Store.

Definition row_of (data : Estimator.ProjectionInput) (name : string)
    (r : Estimator.ProjectionResult) : ProjectionRow :=
  {| row_process_name := name;
     row_industry := Estimator.industry data;
     row_annual_savings := Estimator.annual_savings r;
     row_roi_percentage := Estimator.roi_percentage r |}.

Definition projection_data_of (data : Estimator.ProjectionInput) (name : string)
    (r : Estimator.ProjectionResult) : CIPEngineROI.ProjectionData :=
  {| CIPEngineROI.industry := Estimator.industry data;
     CIPEngineROI.process_name := name;
     CIPEngineROI.annual_savings := Estimator.annual_savings r;
     CIPEngineROI.roi_percentage := Estimator.roi_percentage r |}.

Definition handle_calculate (data : Estimator.ProjectionInput) (db : Database)
    : Estimator.Response Estimator.ProjectionResult * Database :=
  match Estimator.calculate_roi data, Estimator.process_name data with
  | Estimator.Ok r, Some name =>
      let stored :=
        {| roi_projections := roi_projections db ++ [row_of data name r];
           roi_patterns := roi_patterns db;
           roi_insights := roi_insights db |} in
      (Estimator.Ok r, CIPEngineROI.log_patterns (projection_data_of data name r) stored)
  | resp, _ => (resp, db)
  end.

End Handler.

(** ** Observations and what a pattern record says about them *)

Module Observations.
Import Store CIPEngineROI.

(** One observation: the key it is merged under, with savings and ROI. *)
Abbreviation observation := (pattern_key * (Q * Q))%type.

Definition upsert_obs (tbl : gmap pattern_key Pattern) (o : observation) :=
  upsert o.1 o.2.1 o.2.2 tbl.

(** Folding a list of observations, first to last. *)
Definition fold_obs (tbl : gmap pattern_key Pattern) (obs : list observation) :=
  foldl upsert_obs tbl obs.

(** Folding observations that all go under one key. *)
Definition fold_key (k : pattern_key) (tbl : gmap pattern_key Pattern)
    (l : list (Q * Q)) :=
  fold_obs tbl (map (fun sr => (k, sr)) l).

(** The observations [log_patterns] merges for one projection, read off its
    three guarded statements. *)
Definition merged_observations (pd : ProjectionData) : list observation :=
  match industry pd with
  | Some ind =>
      if Py.truthy ind && Py.Qtruthy (annual_savings pd) && Py.Qtruthy (roi_percentage pd)
      then [(industry_key ind, (annual_savings pd, roi_percentage pd))] else []
  | None => []
  end ++
  (if Py.truthy (process_name pd) && Py.Qtruthy (annual_savings pd)
   then [(process_key (process_name pd), (annual_savings pd, roi_percentage pd))]
   else []) ++
  (if Py.Qtruthy (annual_savings pd) && Py.Qgtb (annual_savings pd) 50000
   then [(high_value_key, (annual_savings pd, roi_percentage pd))] else []).

(** The observations the specification names for one projection: one under
    the industry when an industry is given (a non-empty string), one under
    the process name, and one under the high-value key exactly when
    annual_savings > 50000. *)
Definition specified_observations (pd : ProjectionData) : list observation :=
  match industry pd with
  | Some ind =>
      if Py.truthy ind
      then [(industry_key ind, (annual_savings pd, roi_percentage pd))] else []
  | None => []
  end ++
  [(process_key (process_name pd), (annual_savings pd, roi_percentage pd))] ++
  (if Py.Qgtb (annual_savings pd) 50000
   then [(high_value_key, (annual_savings pd, roi_percentage pd))] else []).

(** The savings and ROI of the observations made under key [k]. *)
Definition matching (k : pattern_key) (obs : list observation) : list (Q * Q) :=
  map snd (filter (fun o => o.1 = k) obs).

(** The record [o] found under a key summarises the observations [l]: there
    is no record when there is no observation; otherwise its frequency is
    their number and its averages are their arithmetic means. *)
Definition summarises (o : option Pattern) (l : list (Q * Q)) : Prop :=
  match l with
  | [] => o = None
  | _ :: _ =>
      exists p, o = Some p /\
        frequency p = Z.of_nat (length l) /\
        (avg_savings p == avg (map fst l))%Q /\
        (avg_roi p == avg (map snd l))%Q
  end.

(** Every record of the table summarises the observations seen under its
    key, and keys never observed have no record. *)
Definition tracks (tbl : gmap pattern_key Pattern) (seen : list observation) : Prop :=
  forall k, summarises (tbl !! k) (matching k seen).

(** The engine called once per projection, first to last. *)
Definition log_all (pds : list ProjectionData) (db : Database) : Database :=
  foldl (fun d pd => log_patterns pd d) db pds.

(** A projection whose savings equal its implementation cost: ROI 0. *)
Definition retail_at_cost : Estimator.ProjectionInput :=
  {| Estimator.company_name := "Anonymous";
     Estimator.industry := Some "Retail"%string;
     Estimator.email := None;
     Estimator.process_name := Some "Order Entry"%string;
     Estimator.hours_per_week := 10;
     Estimator.people_count := 1;
     Estimator.hourly_cost := 20;
     Estimator.current_tools_cost := 0;
     Estimator.timeline_expectation := None |}.

(** A projection whose current cost equals the cost of the AI: savings 0. *)
Definition mail_sorting : Estimator.ProjectionInput :=
  {| Estimator.company_name := "Anonymous";
     Estimator.industry := Some "Retail"%string;
     Estimator.email := None;
     Estimator.process_name := Some "Mail Sorting"%string;
     Estimator.hours_per_week := 12;
     Estimator.people_count := 1;
     Estimator.hourly_cost := 1;
     Estimator.current_tools_cost := 148;
     Estimator.timeline_expectation := None |}.

Definition retail_at_cost_data : ProjectionData :=
  {| industry := Some "Retail"%string;
     process_name := "Order Entry";
     annual_savings := 8000;
     roi_percentage := 0 |}.

(** A projection that saves a little less than it costs: ROI -1.25. *)
Definition retail_below_cost_data : ProjectionData :=
  {| industry := Some "Retail"%string;
     process_name := "Order Entry";
     annual_savings := 7900;
     roi_percentage := - (5 # 4) |}.

Definition retail_large : ProjectionData :=
  {| industry := Some "Retail"%string;
     process_name := "Order Entry";
     annual_savings := 60000;
     roi_percentage := 650 |}.

Definition retail_small : ProjectionData :=
  {| industry := Some "Retail"%string;
     process_name := "Returns";
     annual_savings := 20000;
     roi_percentage := 150 |}.

End Observations.

(** ** Group sizes in [roi_projections] *)

Module Groups.
Import Store CIPEngineROI.

(** The number of rows whose column [key] is [k]. *)
Definition group_count (key : ProjectionRow -> option string) (k : string)
    (rows : list ProjectionRow) : nat :=
  length (filter (fun r => key r = Some k) rows).

Definition process_count (name : string) (rows : list ProjectionRow) : nat :=
  group_count process_column name rows.

Definition industry_count (ind : string) (rows : list ProjectionRow) : nat :=
  group_count row_industry ind rows.

(** Every group of the column has fewer than 3 rows, but for the group
    [except], if any. *)
Definition groups_below (key : ProjectionRow -> option string)
    (except : option string) (rows : list ProjectionRow) : Prop :=
  Forall (fun r =>
            match key r with
            | Some k => Some k = except \/ (group_count key k rows < 3)%nat
            | None => True
            end) rows.

Definition row (name : string) (ind : option string) (savings roi : Q) : ProjectionRow :=
  {| row_process_name := name; row_industry := ind;
     row_annual_savings := savings; row_roi_percentage := roi |}.

(** Three projections of one process in three industries, and one more. *)
Definition payroll_rows : list ProjectionRow :=
  [ row "Payroll" (Some "Retail"%string) 30000 275;
    row "Payroll" (Some "Legal"%string) 50000 525;
    row "Returns" (Some "Retail"%string) 20000 150;
    row "Payroll" None 40000 400 ].

(** Three projections of one industry for three processes. *)
Definition retail_rows : list ProjectionRow :=
  [ row "Payroll" (Some "Retail"%string) 30000 275;
    row "Returns" (Some "Retail"%string) 20000 150;
    row "Order Entry" (Some "Retail"%string) 60000 650;
    row "Payroll" (Some "Legal"%string) 50000 525 ].

Definition db_of (rows : list ProjectionRow) : Database :=
  {| roi_projections := rows; roi_patterns := ∅; roi_insights := [] |}.

End Groups.

(** ** Formatting of integers *)

Module PyFormat.

(** [str(n)] for an integer. *)
Definition str_of_int (z : Z) : string := NilZero.string_of_int (Z.to_int z).

(** A comma after every third digit, on the digits written last to first. *)
Fixpoint group3 (digits : list ascii) (in_group : nat) : list ascii :=
  match digits with
  | [] => []
  | d :: rest =>
      match rest with
      | [] => [d]
      | _ :: _ =>
          if Nat.eqb in_group 2 then d :: ","%char :: group3 rest 0
          else d :: group3 rest (S in_group)
      end
  end.

(** The format [{z:,}]: the decimal digits with a comma between groups of
    three, after the sign. *)
Definition thousands (z : Z) : string :=
  let digits := list_ascii_of_string (NilZero.string_of_uint (N.to_uint (Z.abs_N z))) in
  let grouped := string_of_list_ascii (rev (group3 (rev digits) 0)) in
  if z <? 0 then String "-" grouped else grouped.

End PyFormat.

(** ** The monthly report: [generate_monthly_report] *)

Module Report.
Import Store CIPEngineROI.

(** [AVG] of a column over the whole table is NULL on the empty table. *)
Definition sql_avg (l : list Q) : option Q :=
  match l with
  | [] => None
  | _ :: _ => Some (avg l)
  end.

(** [float(x) if x else 0]: NULL and 0 both give 0. *)
Definition or_zero (o : option Q) : Q :=
  match o with
  | Some x => if Py.Qtruthy x then x else 0%Q
  | None => 0%Q
  end.

(** [SELECT ... GROUP BY process_name ORDER BY avg_roi DESC LIMIT 10]. *)
Definition report_processes (rows : list ProjectionRow) : list Aggregate :=
  take 10 (order_by_desc agg_avg_roi (group_by process_column rows)).

Record Opportunity := {
  opportunity : string;
  market_size : Z;
  opp_avg_savings : Q;
  opp_avg_roi : Q;
  potential_revenue : Z
}.

Definition opportunity_of (p : Aggregate) : Opportunity :=
  {| opportunity := ("Build " ++ agg_key p ++ " AI template")%string;
     market_size := agg_count p;
     opp_avg_savings := agg_avg_savings p;
     opp_avg_roi := agg_avg_roi p;
     potential_revenue := agg_count p * 8000 |}.

(** The loop over [top_processes[:3]]. *)
Definition market_opportunities (top : list Aggregate) : list Opportunity :=
  map opportunity_of (filter (fun p => 5 <= agg_count p) (take 3 top)).

(** [_generate_recommendations]. *)
Definition generate_recommendations (opportunities : list Opportunity) : list string :=
  match opportunities with
  | [] => []
  | top_opp :: _ =>
      [ ("BUILD: " ++ opportunity top_opp ++ " - "
         ++ PyFormat.str_of_int (market_size top_opp)
         ++ " companies need this ($"
         ++ PyFormat.thousands (potential_revenue top_opp)
         ++ " potential revenue)")%string ]
  end.

Record MonthlyReport := {
  period : string;
  total_projections : Z;
  avg_annual_savings : Q;
  avg_roi_percentage : Q;
  top_processes : list Aggregate;
  report_opportunities : list Opportunity;
  insights : list Insight;
  recommendations : list string
}.

(** [recent] stands for the rows of the query on [roi_insights], which
    depends on the time of the call: the insights generated in the last 30
    days, at most 5, by confidence and date. *)
Definition generate_monthly_report (recent : list Insight) (db : Database)
    : MonthlyReport :=
  let rows := roi_projections db in
  let top := report_processes rows in
  let opportunities := market_opportunities top in
  {| period := "Last 30 days";
     total_projections := Z.of_nat (length rows);
     avg_annual_savings := or_zero (sql_avg (map row_annual_savings rows));
     avg_roi_percentage := or_zero (sql_avg (map row_roi_percentage rows));
     top_processes := top;
     report_opportunities := opportunities;
     insights := recent;
     recommendations := generate_recommendations opportunities |}.

End Report.

(** ** The statistics endpoint: [get_stats] of [app.py] *)

Module Stats.
Import Store CIPEngineROI.

Record StatsResponse := {
  total_projections : Z;
  avg_annual_savings : Q;
  avg_roi_percentage : Q;
  top_industries : list Aggregate
}.

(** [SELECT industry, AVG(annual_savings), COUNT( * ) ... WHERE industry IS
    NOT NULL GROUP BY industry ORDER BY avg_savings DESC LIMIT 5]. *)
Definition stats_industries (rows : list ProjectionRow) : list Aggregate :=
  take 5 (order_by_desc agg_avg_savings (group_by row_industry rows)).

Definition get_stats (db : Database) : StatsResponse :=
  let rows := roi_projections db in
  {| total_projections := Z.of_nat (length rows);
     avg_annual_savings := Report.or_zero (Report.sql_avg (map row_annual_savings rows));
     avg_roi_percentage := Report.or_zero (Report.sql_avg (map row_roi_percentage rows));
     top_industries := stats_industries rows |}.

End Stats.

(** ** Sequences of requests *)

Module Runs.
Import Store CIPEngineROI.

(** The requests handled one after the other, first to last. *)
Definition handle_all (reqs : list Estimator.ProjectionInput) (db : Database) : Database :=
  foldl (fun d req => (Handler.handle_calculate req d).2) db reqs.

(** What [log_patterns] was given for a stored row. *)
Definition data_of_row (r : ProjectionRow) : ProjectionData :=
  {| industry := row_industry r;
     process_name := row_process_name r;
     annual_savings := row_annual_savings r;
     roi_percentage := row_roi_percentage r |}.

(** The row a request leaves in [roi_projections], if it is accepted. *)
Definition stored_row (req : Estimator.ProjectionInput) : option ProjectionRow :=
  match Estimator.calculate_roi req, Estimator.process_name req with
  | Estimator.Ok r, Some name => Some (Handler.row_of req name r)
  | _, _ => None
  end.

(** The savings and ROI of the rows that satisfy [P]. *)
Definition values_where (P : ProjectionRow -> Prop) `{forall r, Decision (P r)}
    (rows : list ProjectionRow) : list (Q * Q) :=
  map (fun r => (row_annual_savings r, row_roi_percentage r)) (filter P rows).

(** A large, complex process that does not pay for itself in a year. *)
Definition big_cheap_desk : Estimator.ProjectionInput :=
  {| Estimator.company_name := "Anonymous";
     Estimator.industry := None;
     Estimator.email := None;
     Estimator.process_name := Some "Customer Data Desk"%string;
     Estimator.hours_per_week := 41;
     Estimator.people_count := 6;
     Estimator.hourly_cost := 2;
     Estimator.current_tools_cost := 0;
     Estimator.timeline_expectation := None |}.

End Runs.

(** ** Orders and sums on query results *)

Module Order.
Import Store CIPEngineROI.

(** [a] may stand before [b] in a result ordered by [field], descending. *)
Definition desc (field : Aggregate -> Q) (a b : Aggregate) : Prop :=
  (field b <= field a)%Q.

(** [SELECT ... GROUP BY key ORDER BY field DESC LIMIT n], with no HAVING. *)
Definition ranked (key : ProjectionRow -> option string) (field : Aggregate -> Q)
    (n : nat) (rows : list ProjectionRow) : list Aggregate :=
  take n (order_by_desc field (group_by key rows)).

(** The sum of the [COUNT( * )] column of a result. *)
Definition total_count (l : list Aggregate) : Z :=
  foldr (fun a n => agg_count a + n) 0 l.

(** The rows of one group, and the means the queries report for it. *)
Definition group_rows (key : ProjectionRow -> option string) (k : string)
    (rows : list ProjectionRow) : list ProjectionRow :=
  filter (fun r => key r = Some k) rows.

Definition mean_roi (key : ProjectionRow -> option string) (k : string)
    (rows : list ProjectionRow) : Q :=
  avg (map row_roi_percentage (group_rows key k rows)).

Definition mean_savings (key : ProjectionRow -> option string) (k : string)
    (rows : list ProjectionRow) : Q :=
  avg (map row_annual_savings (group_rows key k rows)).

(** Ten projections: six of one process, three of a second, one of a
    third. *)
Definition ten_rows : list ProjectionRow :=
  repeat (Groups.row "Payroll" (Some "Retail"%string) 30000 275) 6 ++
  repeat (Groups.row "Returns" (Some "Legal"%string) 60000 650) 3 ++
  [Groups.row "Filing" None 10000 25].

End Order.

(** ** Binary64 arithmetic *)

(** Python's [float] is IEEE 754 binary64.  The operations are those of
    the software specification of the Standard Library, at precision 53
    and maximal exponent 1024, each rounding its exact result to the
    nearest float, ties to even. *)
Module Binary64.
Import SpecFloat.

Definition prec : Z := 53.
Definition emax : Z := 1024.

Abbreviation float := spec_float.

Definition zero : float := S754_zero false.

Definition mul (x y : float) : float := SFmul prec emax x y.
Definition add (x y : float) : float := SFadd prec emax x y.
Definition sub (x y : float) : float := SFsub prec emax x y.
Definition div (x y : float) : float := SFdiv prec emax x y.

(** [x < y], [x > y], [x <= y], [x == y]; all false on a NaN. *)
Definition ltb (x y : float) : bool := SFltb x y.
Definition gtb (x y : float) : bool := SFltb y x.
Definition leb (x y : float) : bool := SFleb x y.
Definition eqb (x y : float) : bool := SFeqb x y.

(** The exceptions the arithmetic of the handler can raise. *)
Inductive exn := OverflowError | ValueError.

(** The float nearest to an integer. *)
Definition of_Z (n : Z) : float := binary_normalize prec emax n 0 false.

(** An [int] operand of a float operation is converted first, and the
    conversion raises OverflowError when the integer is out of range. *)
Definition of_int (n : Z) : exn + float :=
  match of_Z n with
  | S754_infinity _ => inl OverflowError
  | f => inr f
  end.

Definition pow2 (e : Z) : Q :=
  match e with
  | Z0 => 1%Q
  | Zpos p => inject_Z (2 ^ Zpos p)
  | Zneg p => (1 # (2 ^ p)%positive)%Q
  end.

(** The number a finite float stands for. *)
Definition value (x : float) : option Q :=
  match x with
  | S754_zero _ => Some 0%Q
  | S754_finite sign m e =>
      Some ((if sign then inject_Z (Zneg m) else inject_Z (Zpos m)) * pow2 e)%Q
  | S754_infinity _ | S754_nan => None
  end.

(** [round(x)] on a float: the integer nearest to its value, a tie going
    to the even one; OverflowError on an infinity, ValueError on a NaN. *)
Definition round (x : float) : exn + Z :=
  match x with
  | S754_nan => inl ValueError
  | S754_infinity _ => inl OverflowError
  | _ => match value x with
         | Some q => inr (Py.round q)
         | None => inl ValueError
         end
  end.

(** The literals [0.65] and [0.8]. *)
Definition lit_0_65 : float := S754_finite false 5854679515581645 (-53).
Definition lit_0_8 : float := S754_finite false 7205759403792794 (-53).

End Binary64.

(** ** The estimator in binary64: [calculate_roi], lines 51 to 163 *)

Module EstimatorB64.
Import Binary64.

(** The request after [int(...)] and [float(...)]: the two costs are
    floats, possibly infinite or NaN. *)
Record ProjectionInput := {
  company_name : string;
  industry : option string;
  email : option string;
  process_name : option string;
  hours_per_week : Z;
  people_count : Z;
  hourly_cost : float;
  current_tools_cost : float;
  timeline_expectation : option string
}.

Record ProjectionResult := {
  weekly_cost : float;
  annual_labor_cost : float;
  annual_tools_cost : float;
  annual_cost_current : float;
  automation_percentage : float;
  complexity_score : Z;
  implementation_cost : Z;
  monthly_ai_cost : Z;
  annual_ai_cost : Z;
  hours_automated_weekly : float;
  annual_labor_savings : float;
  annual_cost_with_ai : Z;
  annual_savings : float;
  roi_percentage : float;
  breakeven_months : Z;
  risk_level : Estimator.RiskLevel;
  recommendation : Estimator.Tier;
  next_steps : list string;
  industry_note : string
}.

(** What a call gives: a projection, the 400 response, or an exception. *)
Inductive Outcome (A : Type) :=
| Ok (a : A)
| BadRequest (msg : string)
| Raised (e : exn).
Arguments Ok {A} a.
Arguments BadRequest {A} msg.
Arguments Raised {A} e.

Definition and_then {A B : Type} (c : exn + A) (k : A -> Outcome B) : Outcome B :=
  match c with
  | inl e => Raised e
  | inr a => k a
  end.

(** Lines 113 to 117. *)
Definition breakeven_of (implementation : Z) (savings : float) : exn + Z :=
  if gtb savings zero
  then match round (mul (div (of_Z implementation) savings) (of_Z 12)) with
       | inl e => inl e
       | inr n => inr (Z.max 1 n)
       end
  else inr 999.

Definition risk_of (automation : float) (breakeven score : Z) (savings : float)
    (implementation : Z) : Estimator.RiskLevel :=
  if gtb automation lit_0_8 then Estimator.High
  else if 18 <? breakeven then Estimator.High
  else if 5 <? score then Estimator.Medium
  else if ltb savings (of_Z implementation) then Estimator.High
  else Estimator.Low.

Definition tier_of (roi : float) (breakeven : Z) : Estimator.Tier :=
  if gtb roi (of_Z 200) && (breakeven <=? 12) then Estimator.StrongROI
  else if gtb roi (of_Z 100) && (breakeven <=? 18) then Estimator.GoodROI
  else if gtb roi (of_Z 50) then Estimator.ModerateROI
  else Estimator.ROIConcerns.

Definition calculate_roi (data : ProjectionInput) : Outcome ProjectionResult :=
  match process_name data with
  | None => BadRequest "Missing required fields"
  | Some name =>
      if negb (Py.truthy name) || (hours_per_week data =? 0)
         || eqb (hourly_cost data) zero
      then BadRequest "Missing required fields"
      else
        and_then (of_int (hours_per_week data)) (fun hours =>
        and_then (of_int (people_count data)) (fun people =>
        let weekly := mul (mul hours (hourly_cost data)) people in
        let labor := mul weekly (of_Z 52) in
        let tools := mul (current_tools_cost data) (of_Z 12) in
        let current := add labor tools in
        let automation := lit_0_65 in
        let score :=
          Estimator.complexity (hours_per_week data) (people_count data) name in
        let implementation := Estimator.implementation_cost_of score in
        let monthly := Estimator.monthly_ai_cost_of (hours_per_week data) in
        let annual_ai := monthly * 12 in
        let automated := mul hours automation in
        let labor_savings :=
          mul (mul (mul automated (hourly_cost data)) people) (of_Z 52) in
        let with_ai := annual_ai in
        let savings := sub current (of_Z with_ai) in
        let roi :=
          mul (div (sub savings (of_Z implementation)) (of_Z implementation))
              (of_Z 100) in
        and_then (breakeven_of implementation savings) (fun breakeven =>
        let risk := risk_of automation breakeven score savings implementation in
        let tier := tier_of roi breakeven in
        Ok {| weekly_cost := weekly;
              annual_labor_cost := labor;
              annual_tools_cost := tools;
              annual_cost_current := current;
              automation_percentage := automation;
              complexity_score := score;
              implementation_cost := implementation;
              monthly_ai_cost := monthly;
              annual_ai_cost := annual_ai;
              hours_automated_weekly := automated;
              annual_labor_savings := labor_savings;
              annual_cost_with_ai := with_ai;
              annual_savings := savings;
              roi_percentage := roi;
              breakeven_months := breakeven;
              risk_level := risk;
              recommendation := tier;
              next_steps := Estimator.next_steps_of tier;
              industry_note := Estimator.industry_note_of (industry data) |})))
  end.

Definition request (name : string) (ind : option string) (hours people : Z)
    (hourly tools : float) : ProjectionInput :=
  {| company_name := "Anonymous"; industry := ind; email := None;
     process_name := Some name; hours_per_week := hours; people_count := people;
     hourly_cost := hourly; current_tools_cost := tools;
     timeline_expectation := None |}.

(** The float [1111.111111111111]. *)
Definition lit_1111 : float := SpecFloat.S754_finite false 4886718345671111 (-42).


(** 10 hours a week, one person, 20.0 an hour, no tools. *)
Definition retail_at_cost : ProjectionInput :=
  request "Order Entry" (Some "Retail"%string) 10 1 (of_Z 20) zero.

(** The example of the specification, its costs as floats. *)
Definition invoice_processing : ProjectionInput :=
  request "Invoice Processing" None 30 2 (of_Z 40) zero.

(** A request that costs nothing today. *)
Definition idle_process : ProjectionInput :=
  request "Filing" None 10 0 (of_Z 20) zero.

(** A request with more hours than a float can hold. *)
Definition endless_hours : ProjectionInput :=
  request "Filing" None (10 ^ 400) 1 (of_Z 20) zero.

End EstimatorB64.

(** * Properties *)

(** ** Facts about the Python primitives *)

Module PyFacts.

Lemma Qgtb_true (x y : Q) : Py.Qgtb x y = true <-> (y < x)%Q.
Proof.
  unfold Py.Qgtb. rewrite (Qgt_alt x y).
  destruct (x ?= y)%Q; split; intros H; congruence.
Qed.

Lemma Qgtb_false (x y : Q) : Py.Qgtb x y = false <-> (x <= y)%Q.
Proof.
  unfold Py.Qgtb. rewrite (Qle_alt x y).
  destruct (x ?= y)%Q; split; intros H; congruence.
Qed.

Lemma Qltb_true (x y : Q) : Py.Qltb x y = true <-> (x < y)%Q.
Proof.
  unfold Py.Qltb. rewrite (Qlt_alt x y).
  destruct (x ?= y)%Q; split; intros H; congruence.
Qed.

Lemma Qltb_false (x y : Q) : Py.Qltb x y = false <-> (y <= x)%Q.
Proof.
  unfold Py.Qltb. rewrite (Qge_alt x y).
  destruct (x ?= y)%Q; split; intros H; congruence.
Qed.

Lemma Qtruthy_true (x : Q) : Py.Qtruthy x = true <-> ~ (x == 0)%Q.
Proof.
  unfold Py.Qtruthy. rewrite negb_true_iff.
  split.
  - intros H E. apply Qeq_bool_iff in E. congruence.
  - intros H. destruct (Qeq_bool x 0) eqn:E; [|reflexivity].
    apply Qeq_bool_iff in E. contradiction.
Qed.

Lemma truthy_true (s : string) : Py.truthy s = true <-> s <> EmptyString.
Proof. destruct s; simpl; split; intros H; congruence. Qed.


Example lower_mixed : Py.lower "HealthCare 24/7" = "healthcare 24/7"%string.
Proof. reflexivity. Qed.

Example contains_inside : Py.contains "data" "big database cleanup" = true.
Proof. reflexivity. Qed.

Example contains_absent : Py.contains "support" "invoice processing" = false.
Proof. reflexivity. Qed.

Example round_ties :
  Py.round (1 # 2) = 0 /\ Py.round (3 # 2) = 2 /\ Py.round (5 # 2) = 2 /\
  Py.round (8 # 10) = 1 /\ Py.round (- (1 # 2)) = 0 /\ Py.round (- (3 # 2)) = -2.
Proof. repeat split; reflexivity. Qed.

(** [round] returns a nearest integer. *)
Lemma round_nearest (x : Q) :
  (inject_Z (Py.round x) - (1 # 2) <= x /\ x <= inject_Z (Py.round x) + (1 # 2))%Q.
Proof.
  unfold Py.round.
  pose proof (Qfloor_le x) as Hlo.
  pose proof (Qlt_floor x) as Hhi.
  set (f := Qfloor x) in *.
  assert (E : (inject_Z (f + 1) == inject_Z f + 1)%Q) by (rewrite inject_Z_plus; reflexivity).
  rewrite E in Hhi.
  destruct (x - inject_Z f ?= 1 # 2)%Q eqn:C.
  - apply Qeq_alt in C.
    destruct (Z.even f); [| rewrite E]; split; lra.
  - apply Qlt_alt in C. split; lra.
  - apply Qgt_alt in C. rewrite E. split; lra.
Qed.

End PyFacts.

(** ** The estimator *)

Module EstimatorProps.
Import Estimator.

(** An accepted request is projected from a non-empty name, non-zero hours
    and a non-zero hourly cost. *)
Lemma calculate_roi_ok (data : ProjectionInput) (r : ProjectionResult) :
  calculate_roi data = Ok r ->
  exists name,
    process_name data = Some name /\ name <> EmptyString /\
    hours_per_week data <> 0 /\ ~ (hourly_cost data == 0)%Q /\
    r = project data name.
Proof.
  unfold calculate_roi. intros H.
  destruct (process_name data) as [name|]; [|discriminate].
  destruct (Py.truthy name) eqn:Hn; simpl in H; [|discriminate].
  destruct (hours_per_week data =? 0) eqn:Hh; simpl in H; [discriminate|].
  destruct (Qeq_bool (hourly_cost data) 0) eqn:Hc; [discriminate|].
  exists name. repeat split.
  - now apply PyFacts.truthy_true.
  - now apply Z.eqb_neq.
  - intros E. apply Qeq_bool_iff in E. congruence.
  - congruence.
Qed.

(** Conversely, in exact arithmetic, such a request is projected. *)
Lemma calculate_roi_accepts (data : ProjectionInput) (name : string) :
  process_name data = Some name -> name <> EmptyString ->
  hours_per_week data <> 0 -> ~ (hourly_cost data == 0)%Q ->
  calculate_roi data = Ok (project data name).
Proof.
  intros Hp Hn Hh Hc. unfold calculate_roi. rewrite Hp.
  apply PyFacts.truthy_true in Hn. rewrite Hn.
  apply Z.eqb_neq in Hh. rewrite Hh.
  destruct (Qeq_bool (hourly_cost data) 0) eqn:E; [|reflexivity].
  apply Qeq_bool_iff in E. contradiction.
Qed.

Ltac accepted H :=
  apply calculate_roi_ok in H;
  destruct H as (?name & ?Hname & ?Hne & ?Hhours & ?Hcost & ->).

(** C2, as amended.  For hours_per_week = 30, people_count = 2,
    hourly_cost = 40, current_tools_cost = 0 and process name
    "Invoice Processing" the request is accepted with weekly_cost = 2400,
    annual_labor_cost = annual_cost_current = 124800, complexity_score = 0,
    implementation_cost = 8000, monthly_ai_cost = 400 (30 hours fall in the
    20..39 tier), annual_ai_cost = 4800, annual_savings = 120000,
    roi_percentage = 1400, breakeven_months = 1, risk Low and the strongest
    recommendation tier. *)
Theorem invoice_processing_projection :
  exists r, calculate_roi invoice_processing = Ok r /\
    (weekly_cost r == 2400)%Q /\
    (annual_labor_cost r == 124800)%Q /\
    (annual_cost_current r == 124800)%Q /\
    complexity_score r = 0 /\
    implementation_cost r = 8000 /\
    monthly_ai_cost r = 400 /\
    annual_ai_cost r = 4800 /\
    (annual_savings r == 120000)%Q /\
    (roi_percentage r == 1400)%Q /\
    breakeven_months r = 1 /\
    risk_level r = Low /\
    recommendation r = StrongROI.
Proof.
  eexists. split; [reflexivity|].
  repeat split; vm_compute; reflexivity.
Qed.

(** C2, as the specification states it, fails: the projection of the example
    does not have monthly_ai_cost = 200, annual_ai_cost = 2400,
    annual_savings = 122400 and roi_percentage = 1430. *)
Lemma invoice_processing_not_as_stated :
  ~ (exists r, calculate_roi invoice_processing = Ok r /\
       (weekly_cost r == 2400)%Q /\
       (annual_labor_cost r == 124800)%Q /\
       (annual_cost_current r == 124800)%Q /\
       complexity_score r = 0 /\
       implementation_cost r = 8000 /\
       monthly_ai_cost r = 200 /\
       annual_ai_cost r = 2400 /\
       (annual_savings r == 122400)%Q /\
       (roi_percentage r == 1430)%Q /\
       breakeven_months r = 1 /\
       risk_level r = Low /\
       recommendation r = StrongROI).
Proof.
  intros (r & Hr & _ & _ & _ & _ & _ & Hm & _).
  assert (E : Ok r = Ok (project invoice_processing "Invoice Processing"))
    by (rewrite <- Hr; reflexivity).
  injection E as ->. vm_compute in Hm. discriminate.
Qed.

(** C3.  The monthly AI cost of an accepted request is 200 below 20 hours a
    week, 400 from 20 to 39 and 800 from 40 on, and the annual AI cost is
    twelve times the monthly one. *)
Theorem monthly_ai_cost_tiers (data : ProjectionInput) (r : ProjectionResult) :
  calculate_roi data = Ok r ->
  (hours_per_week data < 20 -> monthly_ai_cost r = 200) /\
  (20 <= hours_per_week data <= 39 -> monthly_ai_cost r = 400) /\
  (40 <= hours_per_week data -> monthly_ai_cost r = 800) /\
  annual_ai_cost r = 12 * monthly_ai_cost r.
Proof.
  intros H. accepted H. simpl. unfold monthly_ai_cost_of.
  repeat split; intros; try lia;
    destruct (Z.ltb_spec (hours_per_week data) 20);
    destruct (Z.ltb_spec (hours_per_week data) 40); lia.
Qed.

Lemma monthly_ai_cost_tiers_witness :
  monthly_ai_cost (project invoice_processing "Invoice Processing") = 400 /\
  annual_ai_cost (project invoice_processing "Invoice Processing") = 4800.
Proof.
  destruct (monthly_ai_cost_tiers invoice_processing _ eq_refl)
    as (_ & Hmid & _ & Hyear).
  assert (Hm : monthly_ai_cost (project invoice_processing "Invoice Processing") = 400)
    by (apply Hmid; vm_compute; split; discriminate).
  split; [exact Hm | rewrite Hyear, Hm; reflexivity].
Defined.

(** In the exact-arithmetic model breakeven_months is
    max(1, round(implementation_cost / annual_savings * 12)) when
    annual_savings > 0, and 999 otherwise. *)
Lemma breakeven_months_formula (data : ProjectionInput) (r : ProjectionResult) :
  calculate_roi data = Ok r ->
  ((0 < annual_savings r)%Q ->
     breakeven_months r =
       Z.max 1 (Py.round (inject_Z (implementation_cost r) / annual_savings r * 12)%Q)) /\
  ((annual_savings r <= 0)%Q -> breakeven_months r = 999).
Proof.
  intros H. accepted H. simpl. unfold breakeven_of. split; intros Hs.
  - apply PyFacts.Qgtb_true in Hs. now rewrite Hs.
  - apply PyFacts.Qgtb_false in Hs. now rewrite Hs.
Qed.

Lemma breakeven_months_formula_witness :
  breakeven_months (project invoice_processing "Invoice Processing") = 1 /\
  breakeven_months (project idle_process "Filing") = 999.
Proof.
  split.
  - destruct (breakeven_months_formula invoice_processing _ eq_refl) as (Hpos & _).
    rewrite Hpos; [vm_compute; reflexivity | vm_compute; reflexivity].
  - destruct (breakeven_months_formula idle_process _ eq_refl) as (_ & Hneg).
    apply Hneg. vm_compute. discriminate.
Defined.

(** C5.  The risk level of an accepted request is given by the first rule
    that applies: automation fraction > 0.8 gives High; otherwise
    breakeven_months > 18 gives High; otherwise complexity_score > 5 gives
    Medium; otherwise annual_savings < implementation_cost gives High;
    otherwise Low. *)
Theorem risk_level_first_match (data : ProjectionInput) (r : ProjectionResult) :
  calculate_roi data = Ok r ->
  let automation_high := ((8 # 10) < automation_percentage r)%Q in
  let slow := 18 < breakeven_months r in
  let complex := 5 < complexity_score r in
  let unpaid := (annual_savings r < inject_Z (implementation_cost r))%Q in
  (automation_high -> risk_level r = High) /\
  (~ automation_high -> slow -> risk_level r = High) /\
  (~ automation_high -> ~ slow -> complex -> risk_level r = Medium) /\
  (~ automation_high -> ~ slow -> ~ complex -> unpaid -> risk_level r = High) /\
  (~ automation_high -> ~ slow -> ~ complex -> ~ unpaid -> risk_level r = Low).
Proof.
  intros H. accepted H. cbv zeta.
  cbn [automation_percentage breakeven_months complexity_score annual_savings
       implementation_cost risk_level project].
  unfold risk_of.
  set (a := the_automation_percentage).
  set (b := breakeven_of _ _). set (c := complexity _ _ _).
  set (s := (_ - _)%Q). set (i := implementation_cost_of c).
  destruct (Py.Qgtb a (8 # 10)) eqn:Ha;
    [apply PyFacts.Qgtb_true in Ha | apply PyFacts.Qgtb_false in Ha].
  { repeat split; intros; try reflexivity; exfalso; auto. }
  assert (Hna : ~ (8 # 10 < a)%Q) by (intros Hlt; lra).
  destruct (Z.ltb_spec 18 b).
  { repeat split; intros; try reflexivity; exfalso; auto. }
  destruct (Z.ltb_spec 5 c).
  { repeat split; intros; try reflexivity; exfalso; auto; lia. }
  destruct (Py.Qltb s (inject_Z i)) eqn:Hs;
    [apply PyFacts.Qltb_true in Hs | apply PyFacts.Qltb_false in Hs].
  { repeat split; intros; try reflexivity; exfalso; auto; lia. }
  repeat split; intros; try reflexivity; exfalso; auto; try lia; lra.
Qed.

Lemma risk_level_first_match_witness :
  risk_level (project invoice_processing "Invoice Processing") = Low /\
  risk_level (project idle_process "Filing") = High.
Proof.
  split.
  - destruct (risk_level_first_match invoice_processing _ eq_refl)
      as (_ & _ & _ & _ & Hlow).
    apply Hlow; vm_compute; intros E; discriminate E.
  - destruct (risk_level_first_match idle_process _ eq_refl)
      as (_ & Hslow & _).
    apply Hslow; vm_compute; [intros E; discriminate E | reflexivity].
Defined.

(** C10.  The automation fraction of every accepted request is the constant
    0.65, so the rule [automation fraction > 0.8] never fires: the risk
    level is the one the three remaining tests give on breakeven_months,
    complexity_score and annual_savings against implementation_cost. *)
Theorem automation_rule_unreachable (data : ProjectionInput) (r : ProjectionResult) :
  calculate_roi data = Ok r ->
  automation_percentage r = 65 # 100 /\
  ~ ((8 # 10) < automation_percentage r)%Q /\
  risk_level r =
    (if 18 <? breakeven_months r then High
     else if 5 <? complexity_score r then Medium
     else if Py.Qltb (annual_savings r) (inject_Z (implementation_cost r)) then High
     else Low).
Proof.
  intros H. accepted H. repeat split.
  intros Hlt. vm_compute in Hlt. discriminate Hlt.
Qed.

Lemma automation_rule_unreachable_witness :
  automation_percentage (project invoice_processing "Invoice Processing") = 65 # 100 /\
  risk_level (project invoice_processing "Invoice Processing") = Low.
Proof.
  destruct (automation_rule_unreachable invoice_processing _ eq_refl)
    as (Ha & _ & Hr).
  split; [exact Ha | rewrite Hr; vm_compute; reflexivity].
Defined.

(** The complexity score only takes the values 0 to 6, and the
    implementation cost is one of the three tiers. *)
Lemma complexity_range (hours people : Z) (name : string) :
  0 <= complexity hours people name <= 6.
Proof.
  unfold complexity.
  destruct (high_volume hours), (many_stakeholders people),
    (data_process name), (customer_facing name); simpl; lia.
Qed.

Lemma implementation_cost_tier (score : Z) :
  implementation_cost_of score = 8000 \/
  implementation_cost_of score = 12000 \/
  implementation_cost_of score = 18000.
Proof.
  unfold implementation_cost_of.
  destruct (score <=? 2); [auto|]. destruct (score <=? 4); auto.
Qed.

Lemma implementation_cost_mono (s1 s2 : Z) :
  s1 <= s2 -> implementation_cost_of s1 <= implementation_cost_of s2.
Proof.
  intros H. unfold implementation_cost_of.
  destruct (Z.leb_spec s1 2), (Z.leb_spec s2 2), (Z.leb_spec s1 4),
    (Z.leb_spec s2 4); lia.
Qed.

Lemma complexity_mono (h1 p1 h2 p2 : Z) (n1 n2 : string) :
  (high_volume h1 = true -> high_volume h2 = true) ->
  (many_stakeholders p1 = true -> many_stakeholders p2 = true) ->
  (data_process n1 = true -> data_process n2 = true) ->
  (customer_facing n1 = true -> customer_facing n2 = true) ->
  complexity h1 p1 n1 <= complexity h2 p2 n2.
Proof.
  unfold complexity. intros Hv Hs Hd Hc.
  destruct (high_volume h1), (high_volume h2); try (specialize (Hv eq_refl); discriminate);
  destruct (many_stakeholders p1), (many_stakeholders p2);
    try (specialize (Hs eq_refl); discriminate);
  destruct (data_process n1), (data_process n2);
    try (specialize (Hd eq_refl); discriminate);
  destruct (customer_facing n1), (customer_facing n2);
    try (specialize (Hc eq_refl); discriminate);
  simpl; lia.
Qed.

(** C7.  If every triggering condition (hours_per_week > 40,
    people_count > 5, name containing "data" or "analysis", name containing
    "customer" or "support") that holds of a first accepted request also
    holds of a second one, the complexity score of the second is at least
    that of the first and its implementation cost, one of 8000, 12000 and
    18000, is not lower. *)
Theorem complexity_monotone (d1 d2 : ProjectionInput) (r1 r2 : ProjectionResult)
    (n1 n2 : string) :
  calculate_roi d1 = Ok r1 -> calculate_roi d2 = Ok r2 ->
  process_name d1 = Some n1 -> process_name d2 = Some n2 ->
  (40 < hours_per_week d1 -> 40 < hours_per_week d2) ->
  (5 < people_count d1 -> 5 < people_count d2) ->
  (data_process n1 = true -> data_process n2 = true) ->
  (customer_facing n1 = true -> customer_facing n2 = true) ->
  complexity_score r1 <= complexity_score r2 /\
  implementation_cost r1 <= implementation_cost r2 /\
  In (implementation_cost r1) [8000; 12000; 18000] /\
  In (implementation_cost r2) [8000; 12000; 18000].
Proof.
  intros H1 H2 E1 E2 Hv Hs Hd Hc.
  accepted H1. accepted H2.
  assert (name = n1) as -> by congruence.
  assert (name0 = n2) as -> by congruence.
  cbn [complexity_score implementation_cost project].
  assert (Hle : complexity (hours_per_week d1) (people_count d1) n1
                <= complexity (hours_per_week d2) (people_count d2) n2).
  { apply complexity_mono; try assumption; unfold high_volume, many_stakeholders;
      rewrite !Z.ltb_lt; assumption. }
  split; [exact Hle|]. split; [now apply implementation_cost_mono|].
  split.
  - destruct (implementation_cost_tier
                (complexity (hours_per_week d1) (people_count d1) n1))
      as [->|[->| ->]]; simpl; auto.
  - destruct (implementation_cost_tier
                (complexity (hours_per_week d2) (people_count d2) n2))
      as [->|[->| ->]]; simpl; auto.
Qed.

Lemma complexity_monotone_witness :
  complexity_score (project invoice_processing "Invoice Processing")
    <= complexity_score (project support_desk "Customer Support Data Analysis") /\
  implementation_cost (project invoice_processing "Invoice Processing")
    <= implementation_cost (project support_desk "Customer Support Data Analysis").
Proof.
  destruct (complexity_monotone invoice_processing support_desk _ _ _ _
              eq_refl eq_refl eq_refl eq_refl) as (Hs & Hc & _).
  - vm_compute. intros E. discriminate E.
  - vm_compute. intros E. discriminate E.
  - vm_compute. intros E. discriminate E.
  - vm_compute. intros E. discriminate E.
  - split; assumption.
Defined.






End EstimatorProps.

(** ** The pattern aggregator *)

Module AggregatorProps.
Import Store CIPEngineROI Observations.

Lemma Qsum_app (l1 l2 : list Q) : (Qsum (l1 ++ l2) == Qsum l1 + Qsum l2)%Q.
Proof.
  induction l1 as [|x l1 IH]; simpl.
  - ring.
  - rewrite IH. ring.
Qed.

Lemma Qsum_perm (l1 l2 : list Q) : Permutation l1 l2 -> (Qsum l1 == Qsum l2)%Q.
Proof.
  induction 1 as [|x l1 l2 _ IH|x y l|l1 l2 l3 _ IH1 _ IH2]; simpl.
  - reflexivity.
  - rewrite IH. reflexivity.
  - ring.
  - rewrite IH1. exact IH2.
Qed.

Lemma avg_perm (l1 l2 : list Q) : Permutation l1 l2 -> (avg l1 == avg l2)%Q.
Proof.
  intros H. unfold avg.
  rewrite (Qsum_perm _ _ H), (Permutation_length H). reflexivity.
Qed.

Lemma avg_singleton (x : Q) : (avg [x] == x)%Q.
Proof. unfold avg. simpl. field. Qed.

Lemma count_pos (A : Type) (l : list A) :
  l <> [] -> (0 < inject_Z (Z.of_nat (length l)))%Q.
Proof.
  intros H. destruct l as [|a l]; [contradiction|].
  change 0%Q with (inject_Z 0). rewrite <- Zlt_Qlt. simpl length. lia.
Qed.

(** The incremental mean is the mean recomputed over one more value. *)
Lemma avg_snoc (a : Q) (l : list Q) (x : Q) :
  l <> [] -> (a == avg l)%Q ->
  ((a * inject_Z (Z.of_nat (length l)) + x) / inject_Z (Z.of_nat (length l) + 1)
   == avg (l ++ [x]))%Q.
Proof.
  intros Hl Ha. unfold avg in *.
  rewrite Qsum_app, length_app, Nat2Z.inj_add, !inject_Z_plus. simpl Qsum.
  pose proof (count_pos _ l Hl) as Hn.
  set (n := inject_Z (Z.of_nat (length l))) in *.
  change (inject_Z (Z.of_nat (length [x]))) with 1%Q.
  change (inject_Z 1) with 1%Q.
  rewrite Ha. field. split; lra.
Qed.

Lemma summarises_proper (o : option Pattern) (l : list (Q * Q)) :
  summarises o l -> l <> [] ->
  exists p, o = Some p /\ frequency p = Z.of_nat (length l) /\
    (avg_savings p == avg (map fst l))%Q /\ (avg_roi p == avg (map snd l))%Q.
Proof. destruct l; [contradiction | intros H _; exact H]. Qed.

(** One upsert under the key of a summarised record: the record summarises
    one more observation. *)
Lemma upsert_same (k : pattern_key) (s r : Q) (tbl : gmap pattern_key Pattern)
    (l : list (Q * Q)) :
  summarises (tbl !! k) l ->
  summarises (upsert k s r tbl !! k) (l ++ [(s, r)]).
Proof.
  intros H. unfold upsert.
  destruct l as [|o l].
  - simpl in H. rewrite H, lookup_insert_eq. simpl.
    eexists. split; [reflexivity|]. simpl.
    repeat split; [rewrite avg_singleton | rewrite avg_singleton]; reflexivity.
  - destruct H as (p & Hp & Hf & Hs & Hr).
    rewrite Hp, lookup_insert_eq.
    change ((o :: l) ++ [(s, r)]) with (o :: (l ++ [(s, r)])).
    cbn [summarises]. eexists. split; [reflexivity|]. cbn [frequency avg_savings avg_roi].
    change (o :: (l ++ [(s, r)])) with ((o :: l) ++ [(s, r)]).
    rewrite !map_app, Hf. cbn [map fst snd].
    rewrite <- (length_map fst (o :: l)) at 2.
    rewrite <- (length_map snd (o :: l)) at 3.
    split; [rewrite length_app; simpl; lia|].
    split.
    + rewrite <- (length_map fst (o :: l)). rewrite <- (length_map fst (o :: l)) in Hf.
      apply avg_snoc; [discriminate | exact Hs].
    + rewrite <- (length_map snd (o :: l)).
      apply avg_snoc; [discriminate | exact Hr].
Qed.

Lemma upsert_other (k k' : pattern_key) (s r : Q) (tbl : gmap pattern_key Pattern) :
  k <> k' -> upsert k s r tbl !! k' = tbl !! k'.
Proof.
  intros H. unfold upsert.
  destruct (tbl !! k); now rewrite lookup_insert_ne.
Qed.

Lemma matching_snoc_same (k : pattern_key) (obs : list observation) (sr : Q * Q) :
  matching k (obs ++ [(k, sr)]) = matching k obs ++ [sr].
Proof.
  unfold matching. rewrite filter_app, map_app.
  rewrite (filter_cons_True (fun o : observation => o.1 = k)) by reflexivity.
  reflexivity.
Qed.

Lemma matching_snoc_other (k k' : pattern_key) (obs : list observation) (sr : Q * Q) :
  k <> k' -> matching k' (obs ++ [(k, sr)]) = matching k' obs.
Proof.
  intros H. unfold matching. rewrite filter_app, map_app.
  rewrite (filter_cons_False (fun o : observation => o.1 = k')) by exact H.
  simpl. apply app_nil_r.
Qed.

Lemma matching_app (k : pattern_key) (o1 o2 : list observation) :
  matching k (o1 ++ o2) = matching k o1 ++ matching k o2.
Proof. unfold matching. now rewrite filter_app, map_app. Qed.

Lemma matching_own (k : pattern_key) (l : list (Q * Q)) :
  matching k (map (fun sr => (k, sr)) l) = l.
Proof.
  unfold matching. induction l as [|sr l IH]; [reflexivity|].
  cbn [map]. rewrite (filter_cons_True (fun o : observation => o.1 = k)) by reflexivity.
  cbn [map snd]. now rewrite IH.
Qed.

Lemma tracks_empty : tracks ∅ [].
Proof. intros k. simpl. apply lookup_empty. Qed.

Lemma tracks_upsert (tbl : gmap pattern_key Pattern) (seen : list observation)
    (o : observation) :
  tracks tbl seen -> tracks (upsert_obs tbl o) (seen ++ [o]).
Proof.
  intros H k'. destruct o as [k [s r]]. unfold upsert_obs. cbn [fst snd].
  destruct (decide (k = k')) as [<-|Hne].
  - rewrite matching_snoc_same. apply upsert_same, H.
  - rewrite matching_snoc_other, upsert_other by exact Hne. apply H.
Qed.

Lemma tracks_fold (obs : list observation) :
  forall (tbl : gmap pattern_key Pattern) (seen : list observation),
    tracks tbl seen -> tracks (fold_obs tbl obs) (seen ++ obs).
Proof.
  induction obs as [|o obs IH]; intros tbl seen H.
  - now rewrite app_nil_r.
  - change (seen ++ o :: obs) with (seen ++ [o] ++ obs). rewrite app_assoc.
    apply IH, tracks_upsert, H.
Qed.

(** [log_patterns] changes [roi_patterns] by its three statements only, and
    these fold the observations read off their guards. *)
Lemma log_patterns_patterns (pd : ProjectionData) (db : Database) :
  roi_patterns (log_patterns pd db) = log_rows pd (roi_patterns db).
Proof.
  unfold log_patterns, check_analysis_trigger, analyze_patterns.
  cbn [roi_projections roi_patterns].
  destruct (_ =? 0); reflexivity.
Qed.

Lemma log_rows_fold (pd : ProjectionData) (tbl : gmap pattern_key Pattern) :
  log_rows pd tbl = fold_obs tbl (merged_observations pd).
Proof.
  unfold log_rows, log_industry, log_process, log_high_value,
    merged_observations, fold_obs.
  rewrite !foldl_app.
  destruct (industry pd) as [ind|];
    [destruct (Py.truthy ind && Py.Qtruthy (annual_savings pd)
               && Py.Qtruthy (roi_percentage pd))|];
    destruct (Py.truthy (process_name pd) && Py.Qtruthy (annual_savings pd));
    destruct (Py.Qtruthy (annual_savings pd) && Py.Qgtb (annual_savings pd) 50000);
    reflexivity.
Qed.

Lemma log_all_patterns (pds : list ProjectionData) :
  forall db : Database,
    roi_patterns (log_all pds db)
    = fold_obs (roi_patterns db) (flat_map merged_observations pds).
Proof.
  induction pds as [|pd pds IH]; intros db; [reflexivity|].
  cbn [log_all foldl flat_map]. fold (log_all pds (log_patterns pd db)).
  rewrite IH, log_patterns_patterns, log_rows_fold.
  unfold fold_obs. now rewrite foldl_app.
Qed.

(** What the engine merges, whatever the projections are: each record
    summarises the observations its guards let through. *)
Lemma log_all_tracks (pds : list ProjectionData) :
  tracks (roi_patterns (log_all pds empty_db)) (flat_map merged_observations pds).
Proof.
  rewrite log_all_patterns.
  change (flat_map merged_observations pds)
    with ([] ++ flat_map merged_observations pds) at 2.
  apply tracks_fold, tracks_empty.
Qed.

(** With a process name and non-zero savings and ROI, the guards let
    through exactly the observations the specification names. *)
Lemma merged_is_specified (pd : ProjectionData) :
  process_name pd <> EmptyString ->
  ~ (annual_savings pd == 0)%Q -> ~ (roi_percentage pd == 0)%Q ->
  merged_observations pd = specified_observations pd.
Proof.
  intros Hn Hs Hr. unfold merged_observations, specified_observations.
  apply PyFacts.truthy_true in Hn. apply PyFacts.Qtruthy_true in Hs, Hr.
  rewrite Hn, Hs, Hr. cbn [andb].
  destruct (industry pd) as [ind|]; [rewrite !andb_true_r|]; reflexivity.
Qed.

(** For projections with a process name whose annual_savings and
    roi_percentage are both non-zero, [log_patterns] merges exactly the
    specified observations; after any sequence of such calls on an empty
    table every key has a record exactly when some observation was made
    under it, with their number and their arithmetic means. *)
Lemma log_patterns_merges_specified (pds : list ProjectionData) (k : pattern_key) :
  Forall (fun pd => process_name pd <> EmptyString /\
                    ~ (annual_savings pd == 0)%Q /\
                    ~ (roi_percentage pd == 0)%Q) pds ->
  summarises (roi_patterns (log_all pds empty_db) !! k)
             (matching k (flat_map specified_observations pds)).
Proof.
  intros H.
  assert (E : flat_map merged_observations pds = flat_map specified_observations pds).
  { induction H as [|pd pds (Hn & Hs & Hr) _ IH]; [reflexivity|].
    cbn [flat_map]. now rewrite IH, merged_is_specified. }
  rewrite <- E. apply log_all_tracks.
Qed.

Lemma log_patterns_merges_specified_witness :
  exists p,
    roi_patterns (log_all [retail_large; retail_small] empty_db)
      !! industry_key "Retail" = Some p /\
    frequency p = 2 /\
    (avg_savings p == 40000)%Q /\ (avg_roi p == 400)%Q.
Proof.
  assert (H : Forall (fun pd => process_name pd <> EmptyString /\
                                ~ (annual_savings pd == 0)%Q /\
                                ~ (roi_percentage pd == 0)%Q)
                     [retail_large; retail_small]).
  { repeat constructor; vm_compute; intros E; discriminate E. }
  destruct (summarises_proper _ _
              (log_patterns_merges_specified _ (industry_key "Retail") H))
    as (p & Hp & Hf & Hs & Hr).
  - vm_compute. intros E. discriminate E.
  - exists p. split; [exact Hp|]. split; [exact Hf|].
    split; [rewrite Hs | rewrite Hr]; vm_compute; reflexivity.
Defined.

(** C1.  The specification is not met by the code.  The request of 10
    hours a week at 20.0 an hour in retail is answered with annual_savings
    8000.0 and roi_percentage 0.0 (the float zero).  The specification
    names an observation under the industry; the guard of the first
    statement of [log_patterns] takes the ROI 0 for a missing value and
    stores none, while the process statement stores the same observation,
    ROI 0 included, and a negative ROI is stored under the industry. *)
Theorem industry_observation_dropped :
  (exists r savings,
     EstimatorB64.calculate_roi EstimatorB64.retail_at_cost = EstimatorB64.Ok r /\
     Binary64.value (EstimatorB64.annual_savings r) = Some savings /\
     (savings == 8000)%Q /\
     EstimatorB64.roi_percentage r = Binary64.zero) /\
  In (industry_key "Retail", (8000%Q, 0%Q))
     (specified_observations retail_at_cost_data) /\
  roi_patterns (log_all [retail_at_cost_data] empty_db) !! industry_key "Retail" = None /\
  roi_patterns (log_all [retail_at_cost_data] empty_db) !! process_key "Order Entry"
  = Some {| frequency := 1; avg_savings := 8000; avg_roi := 0 |} /\
  roi_patterns (log_all [retail_below_cost_data] empty_db) !! industry_key "Retail"
  = Some {| frequency := 1; avg_savings := 7900; avg_roi := - (5 # 4) |} /\
  roi_patterns (Handler.handle_calculate retail_at_cost empty_db).2
    !! industry_key "Retail" = None.
Proof.
  split.
  { eexists. eexists. split; [vm_compute; reflexivity|].
    split; [reflexivity|]. split; vm_compute; reflexivity. }
  split; [left; reflexivity|].
  repeat split; vm_compute; reflexivity.
Qed.

(** In the same way a projection that saves exactly 0 leaves no record at
    all, not even under its process name. *)
Lemma zero_savings_not_recorded :
  Estimator.calculate_roi mail_sorting
    = Estimator.Ok (Estimator.project mail_sorting "Mail Sorting") /\
  (Estimator.annual_savings (Estimator.project mail_sorting "Mail Sorting") == 0)%Q /\
  roi_patterns (Handler.handle_calculate mail_sorting empty_db).2 = ∅.
Proof.
  split; [reflexivity|]. split; vm_compute; reflexivity.
Qed.

(** Folding a non-empty list of observations under a key that has no
    record yet leaves a record with their number and their means. *)
Lemma fold_key_summarises (k : pattern_key) (tbl : gmap pattern_key Pattern)
    (l : list (Q * Q)) :
  tbl !! k = None -> summarises (fold_key k tbl l !! k) l.
Proof.
  intros Hk. unfold fold_key.
  induction l as [|sr l IH] using rev_ind.
  - exact Hk.
  - rewrite map_app. unfold fold_obs in *. rewrite foldl_app. cbn [map foldl].
    unfold upsert_obs at 1. cbn [fst snd]. destruct sr as [s r].
    apply upsert_same, IH.
Qed.

(** C6.  Folding the same observations under one key in any order gives
    the same frequency and, in exact arithmetic, the same avg_savings and
    avg_roi, which are the arithmetic means of all the observations. *)
Theorem merge_order_independent (k : pattern_key) (tbl : gmap pattern_key Pattern)
    (l1 l2 : list (Q * Q)) :
  tbl !! k = None -> l1 <> [] -> Permutation l1 l2 ->
  exists p1 p2,
    fold_key k tbl l1 !! k = Some p1 /\
    fold_key k tbl l2 !! k = Some p2 /\
    frequency p1 = frequency p2 /\
    frequency p1 = Z.of_nat (length l1) /\
    (avg_savings p1 == avg_savings p2)%Q /\
    (avg_roi p1 == avg_roi p2)%Q /\
    (avg_savings p1 == avg (map fst l1))%Q /\
    (avg_roi p1 == avg (map snd l1))%Q.
Proof.
  intros Hk Hne Hperm.
  assert (Hne2 : l2 <> []).
  { intros ->. apply Permutation_nil_r in Hperm. contradiction. }
  destruct (summarises_proper _ _ (fold_key_summarises k tbl l1 Hk) Hne)
    as (p1 & Hp1 & Hf1 & Hs1 & Hr1).
  destruct (summarises_proper _ _ (fold_key_summarises k tbl l2 Hk) Hne2)
    as (p2 & Hp2 & Hf2 & Hs2 & Hr2).
  exists p1, p2. repeat split; try assumption.
  - rewrite Hf1, Hf2, (Permutation_length Hperm). reflexivity.
  - rewrite Hs1, Hs2. apply avg_perm, Permutation_map, Hperm.
  - rewrite Hr1, Hr2. apply avg_perm, Permutation_map, Hperm.
Qed.

Lemma merge_order_independent_witness :
  exists p1 p2,
    fold_key high_value_key ∅ [(60000, 650); (90000, 1025); (75000, 300)]%Q
      !! high_value_key = Some p1 /\
    fold_key high_value_key ∅ [(75000, 300); (60000, 650); (90000, 1025)]%Q
      !! high_value_key = Some p2 /\
    frequency p1 = 3 /\ frequency p2 = 3 /\
    (avg_savings p1 == 75000)%Q /\ (avg_savings p2 == 75000)%Q.
Proof.
  destruct (merge_order_independent high_value_key ∅
              [(60000, 650); (90000, 1025); (75000, 300)]%Q
              [(75000, 300); (60000, 650); (90000, 1025)]%Q)
    as (p1 & p2 & H1 & H2 & Hf & Hn & Hs & _ & Hm & _).
  - apply lookup_empty.
  - discriminate.
  - apply Permutation_sym, (Permutation_cons_append [(60000, 650); (90000, 1025)]%Q).
  - exists p1, p2. split; [exact H1|]. split; [exact H2|].
    split; [exact Hn|]. split; [rewrite <- Hf; exact Hn|].
    split; [|rewrite <- Hs]; rewrite Hm; vm_compute; reflexivity.
Defined.

End AggregatorProps.

(** ** The insight generator *)

Module InsightProps.
Import Store CIPEngineROI Groups.

Section Ranking.
Context (key : ProjectionRow -> option string) (field : Aggregate -> Q).

Lemma filter_groups_none (rows : list ProjectionRow) (ks : list string) :
  (forall k, k ∈ ks -> (group_count key k rows < 3)%nat) ->
  filter (fun a => 3 <= agg_count a)
         (map (fun k => aggregate k (filter (fun r => key r = Some k) rows)) ks) = [].
Proof.
  induction ks as [|k ks IH]; intros H; [reflexivity|].
  cbn [map]. rewrite filter_cons_False.
  - apply IH. intros k' Hk'. apply H. now right.
  - cbn [agg_count aggregate]. specialize (H k (list_elem_of_here _ _)).
    unfold group_count in H. lia.
Qed.

Lemma filter_groups_one (rows : list ProjectionRow) (ks : list string) (k : string) :
  NoDup ks -> k ∈ ks ->
  (3 <= group_count key k rows)%nat ->
  (forall k', k' ∈ ks -> k' <> k -> (group_count key k' rows < 3)%nat) ->
  filter (fun a => 3 <= agg_count a)
         (map (fun k => aggregate k (filter (fun r => key r = Some k) rows)) ks)
  = [aggregate k (filter (fun r => key r = Some k) rows)].
Proof.
  induction ks as [|k0 ks IH]; intros Hnd Hin Hk Hothers.
  - now apply elem_of_nil in Hin.
  - apply NoDup_cons in Hnd as [Hk0 Hnd]. cbn [map].
    destruct (decide (k0 = k)) as [->|Hne].
    + rewrite filter_cons_True
        by (cbn [agg_count aggregate]; unfold group_count in Hk; lia).
      f_equal. apply filter_groups_none.
      intros k' Hk'. apply Hothers; [now right|]. intros ->. contradiction.
    + rewrite filter_cons_False.
      * apply IH; try assumption.
        -- apply elem_of_cons in Hin as [->|Hin]; [contradiction | exact Hin].
        -- intros k' Hk'. apply Hothers. now right.
      * cbn [agg_count aggregate].
        specialize (Hothers k0 (list_elem_of_here _ _) Hne).
        unfold group_count in Hothers. lia.
Qed.

Lemma groups_below_spec (except : option string) (rows : list ProjectionRow) (k : string) :
  groups_below key except rows -> k ∈ omap key rows -> Some k <> except ->
  (group_count key k rows < 3)%nat.
Proof.
  intros H Hin Hne. apply list_elem_of_omap in Hin as (r & Hr & Hkr).
  unfold groups_below in H. rewrite Forall_forall in H.
  specialize (H r Hr). rewrite Hkr in H. destruct H; [contradiction | assumption].
Qed.

Lemma group_count_elem (rows : list ProjectionRow) (k : string) :
  (0 < group_count key k rows)%nat -> k ∈ omap key rows.
Proof.
  unfold group_count. intros H.
  destruct (filter (fun r => key r = Some k) rows) as [|r l] eqn:E; [simpl in H; lia|].
  assert (Hr : r ∈ filter (fun r => key r = Some k) rows) by (rewrite E; left).
  apply list_elem_of_filter in Hr as [Hk Hr].
  apply list_elem_of_omap. eauto.
Qed.

(** No group with 3 rows: the ranking is empty. *)
Lemma top_groups_none (rows : list ProjectionRow) :
  groups_below key None rows -> top_groups key field rows = [].
Proof.
  intros H. unfold top_groups, group_by.
  rewrite filter_groups_none; [reflexivity|].
  intros k Hk. rewrite elem_of_remove_dups in Hk.
  apply (groups_below_spec None); [exact H | exact Hk | discriminate].
Qed.

(** One group with 3 rows or more: the ranking is this group. *)
Lemma top_groups_one (rows : list ProjectionRow) (k : string) :
  (3 <= group_count key k rows)%nat -> groups_below key (Some k) rows ->
  top_groups key field rows = [aggregate k (filter (fun r => key r = Some k) rows)].
Proof.
  intros Hk H. unfold top_groups, group_by.
  rewrite (filter_groups_one rows _ k); [reflexivity | | | assumption |].
  - apply NoDup_remove_dups.
  - apply elem_of_remove_dups, group_count_elem. lia.
  - intros k' Hk' Hne. rewrite elem_of_remove_dups in Hk'.
    apply (groups_below_spec (Some k)); [assumption..|]. congruence.
Qed.

End Ranking.

(** C8.  When every process group and every industry group of
    [roi_projections] has fewer than 3 rows, [analyze_patterns] inserts no
    insight.  When one process group has exactly 3 rows and every other
    group fewer, it inserts exactly one insight, of type best_roi_process
    with confidence 0.95; when one industry group has exactly 3 rows and
    every other group fewer, exactly one insight of type
    best_savings_industry with confidence 0.90.  A ranking with no
    qualifying group is passed over; the other tables are left as they
    are. *)
Theorem analyze_patterns_threshold (db : Database) :
  let rows := roi_projections db in
  let after := analyze_patterns db in
  roi_projections after = rows /\ roi_patterns after = roi_patterns db /\
  (groups_below process_column None rows -> groups_below row_industry None rows ->
   roi_insights after = roi_insights db) /\
  (forall name,
     process_count name rows = 3%nat ->
     groups_below process_column (Some name) rows ->
     groups_below row_industry None rows ->
     exists i, roi_insights after = roi_insights db ++ [i] /\
       insight_type i = "best_roi_process"%string /\ confidence i = 95 # 100 /\
       supporting_subject i = name /\ supporting_count i = 3) /\
  (forall ind,
     industry_count ind rows = 3%nat ->
     groups_below row_industry (Some ind) rows ->
     groups_below process_column None rows ->
     exists i, roi_insights after = roi_insights db ++ [i] /\
       insight_type i = "best_savings_industry"%string /\ confidence i = 90 # 100 /\
       supporting_subject i = ind /\ supporting_count i = 3).
Proof.
  cbv zeta. unfold analyze_patterns, new_insights, top_processes, top_industries.
  cbn [roi_projections roi_patterns roi_insights].
  split; [reflexivity|]. split; [reflexivity|]. split; [|split].
  - intros Hp Hi. rewrite !top_groups_none by assumption. apply app_nil_r.
  - intros name Hn Hp Hi. unfold process_count in Hn.
    rewrite (top_groups_one process_column agg_avg_roi _ name); [| lia | assumption].
    rewrite top_groups_none by assumption.
    eexists. split; [reflexivity|].
    cbn. unfold group_count in Hn. rewrite Hn. repeat split.
  - intros ind Hn Hi Hp. unfold industry_count in Hn.
    rewrite (top_groups_one row_industry agg_avg_savings _ ind); [| lia | assumption].
    rewrite top_groups_none by assumption.
    eexists. split; [reflexivity|].
    cbn. unfold group_count in Hn. rewrite Hn. repeat split.
Qed.

Ltac below :=
  unfold groups_below;
  repeat (constructor; [vm_compute; ((left; reflexivity) || (right; lia) || exact I)|]);
  constructor.

Lemma analyze_patterns_threshold_witness :
  roi_insights (analyze_patterns (db_of (take 2 payroll_rows))) = [] /\
  (exists i, roi_insights (analyze_patterns (db_of payroll_rows)) = [i] /\
     insight_type i = "best_roi_process"%string /\ confidence i = 95 # 100 /\
     supporting_subject i = "Payroll"%string) /\
  (exists i, roi_insights (analyze_patterns (db_of retail_rows)) = [i] /\
     insight_type i = "best_savings_industry"%string /\ confidence i = 90 # 100 /\
     supporting_subject i = "Retail"%string).
Proof.
  split; [|split].
  - destruct (analyze_patterns_threshold (db_of (take 2 payroll_rows)))
      as (_ & _ & Hnone & _).
    apply Hnone; below.
  - destruct (analyze_patterns_threshold (db_of payroll_rows))
      as (_ & _ & _ & Hprocess & _).
    destruct (Hprocess "Payroll"%string) as (i & Hi & Ht & Hc & Hs & _);
      [vm_compute; reflexivity | below | below |].
    exists i. repeat split; assumption.
  - destruct (analyze_patterns_threshold (db_of retail_rows))
      as (_ & _ & _ & _ & Hindustry).
    destruct (Hindustry "Retail"%string) as (i & Hi & Ht & Hc & Hs & _);
      [vm_compute; reflexivity | below | below |].
    exists i. repeat split; assumption.
Defined.

End InsightProps.

(** * Further properties of the code *)

(** ** More on the Python primitives *)

Module PyMore.

Lemma prefix_app (n h : string) :
  String.prefix n h = true <-> exists post, h = (n ++ post)%string.
Proof.
  revert h. induction n as [|c n IH]; intros h; simpl.
  - split; [intros _; now exists h | intros _; destruct h; reflexivity].
  - destruct h as [|d h]; simpl.
    + split; [discriminate | intros (post & E); discriminate E].
    + destruct (ascii_dec c d) as [->|Hne].
      * rewrite IH. split; intros (post & E); exists post.
        -- simpl. now rewrite E.
        -- simpl in E. now injection E.
      * split; [discriminate | intros (post & E)].
        simpl in E. injection E as E _. congruence.
Qed.

(** [needle in hay] holds exactly when [hay] is some text, then [needle],
    then some text. *)
Lemma contains_substring (n h : string) :
  Py.contains n h = true <-> exists pre post, h = (pre ++ n ++ post)%string.
Proof.
  induction h as [|d h IH]; cbn [Py.contains].
  - rewrite orb_false_r, prefix_app. split.
    + intros (post & E). now exists EmptyString, post.
    + intros ([|c pre] & post & E); [now exists post | discriminate E].
  - rewrite orb_true_iff, IH, prefix_app. split.
    + intros [(post & E)|(pre & post & E)].
      * now exists EmptyString, post.
      * exists (String d pre), post. simpl. now rewrite E.
    + intros ([|c pre] & post & E).
      * left. now exists post.
      * right. simpl in E. injection E as _ E. now exists pre, post.
Qed.

Lemma lower_ascii_idem (c : ascii) :
  Py.lower_ascii (Py.lower_ascii c) = Py.lower_ascii c.
Proof.
  unfold Py.lower_ascii.
  destruct (Nat.leb 65 (nat_of_ascii c) && Nat.leb (nat_of_ascii c) 90)%bool eqn:E;
    [|now rewrite E].
  apply andb_true_iff in E as [E1 E2].
  apply Nat.leb_le in E1, E2.
  rewrite nat_ascii_embedding by lia.
  destruct (Nat.leb_spec (nat_of_ascii c + 32) 90); [lia|].
  now rewrite andb_false_r.
Qed.

Lemma lower_idem (s : string) : Py.lower (Py.lower s) = Py.lower s.
Proof.
  induction s as [|c s IH]; simpl; [reflexivity|].
  now rewrite lower_ascii_idem, IH.
Qed.

Lemma round_le_int (x : Q) (n : Z) : (x <= inject_Z n)%Q -> Py.round x <= n.
Proof.
  intros H. destruct (PyFacts.round_nearest x) as [Hlo _].
  assert (Hlt : (inject_Z (Py.round x) < inject_Z (n + 1))%Q).
  { rewrite inject_Z_plus. change (inject_Z 1) with 1%Q. lra. }
  rewrite <- Zlt_Qlt in Hlt. lia.
Qed.

Lemma round_ge_int (x : Q) (n : Z) : (inject_Z n <= x)%Q -> n <= Py.round x.
Proof.
  intros H. destruct (PyFacts.round_nearest x) as [_ Hhi].
  assert (Hlt : (inject_Z n < inject_Z (Py.round x + 1))%Q).
  { rewrite inject_Z_plus. change (inject_Z 1) with 1%Q. lra. }
  rewrite <- Zlt_Qlt in Hlt. lia.
Qed.

(** The three cases of [round] on the part of [x] above its floor. *)
Lemma round_cases (x : Q) :
  ((x - inject_Z (Qfloor x) < 1 # 2)%Q /\ Py.round x = Qfloor x) \/
  ((x - inject_Z (Qfloor x) == 1 # 2)%Q /\
   Py.round x = (if Z.even (Qfloor x) then Qfloor x else Qfloor x + 1)) \/
  ((1 # 2 < x - inject_Z (Qfloor x))%Q /\ Py.round x = Qfloor x + 1).
Proof.
  unfold Py.round.
  destruct (x - inject_Z (Qfloor x) ?= 1 # 2)%Q eqn:C.
  - right; left. split; [now apply Qeq_alt | reflexivity].
  - left. split; [now apply Qlt_alt | reflexivity].
  - right; right. split; [now apply Qgt_alt in C | reflexivity].
Qed.

(** [round] is monotone. *)
Lemma round_mono (x y : Q) : (x <= y)%Q -> Py.round x <= Py.round y.
Proof.
  intros H.
  pose proof (Qfloor_resp_le _ _ H) as Hf.
  destruct (Z.eq_dec (Qfloor x) (Qfloor y)) as [E|Hne].
  - destruct (round_cases x) as [[Cx ->]|[[Cx ->]|[Cx ->]]];
      destruct (round_cases y) as [[Cy ->]|[[Cy ->]|[Cy ->]]];
      rewrite <- E in *; try (destruct (Z.even (Qfloor x))); try lia;
      exfalso; lra.
  - assert (Hlt : Qfloor x + 1 <= Qfloor y) by lia.
    transitivity (Qfloor y).
    + transitivity (Qfloor x + 1); [|exact Hlt].
      apply round_le_int. pose proof (Qlt_floor x) as Hx.
      rewrite inject_Z_plus in *. change (inject_Z 1) with 1%Q in *. lra.
    + apply round_ge_int, Qfloor_le.
Qed.

End PyMore.

(** ** More on the estimator *)

Module EstimatorMore.
Import Estimator.

Ltac accepted H :=
  apply EstimatorProps.calculate_roi_ok in H;
  destruct H as (?name & ?Hname & ?Hne & ?Hhours & ?Hcost & ->).

Lemma implementation_cost_pos (score : Z) : (0 < inject_Z (implementation_cost_of score))%Q.
Proof.
  change 0%Q with (inject_Z 0). rewrite <- Zlt_Qlt.
  destruct (EstimatorProps.implementation_cost_tier score) as [->|[->| ->]]; lia.
Qed.

(** ROI above [100 * k] percent is savings above [k + 1] times the cost. *)
Lemma roi_above (s i k : Q) :
  (0 < i)%Q ->
  (k * 100 < (s - i) / i * 100)%Q <-> ((k + 1) * i < s)%Q.
Proof.
  intros Hi.
  assert (E : ((s - i) / i * i == s - i)%Q) by (field; lra).
  set (q := ((s - i) / i)%Q) in *.
  split; intros H.
  - assert (Hq : (k < q)%Q) by lra.
    assert (Hm : (k * i < q * i)%Q) by (apply Qmult_lt_r; assumption).
    lra.
  - assert (Hm : (k * i < q * i)%Q) by lra.
    apply Qmult_lt_r in Hm; [lra | assumption].
Qed.

Lemma breakeven_at_least_1 (i : Z) (s : Q) : 1 <= breakeven_of i s.
Proof. unfold breakeven_of. destruct (Py.Qgtb s 0); lia. Qed.

(** Savings of at least [12 / n] times the cost break even in [n] months. *)
Lemma breakeven_within (i n : Z) (s : Q) :
  (0 < s)%Q -> 1 <= n -> (inject_Z i * 12 <= inject_Z n * s)%Q ->
  breakeven_of i s <= n.
Proof.
  intros Hs Hn H. unfold breakeven_of.
  apply PyFacts.Qgtb_true in Hs as Hb. rewrite Hb.
  apply Z.max_lub; [exact Hn|].
  apply PyMore.round_le_int.
  assert (E : (inject_Z i / s * 12 == inject_Z i * 12 / s)%Q) by (field; lra).
  rewrite E. apply Qle_shift_div_r; assumption.
Qed.

Section Accepted.
Context (data : ProjectionInput) (r : ProjectionResult).
Hypothesis Hok : calculate_roi data = Ok r.

Lemma result_cost_pos : (0 < inject_Z (implementation_cost r))%Q.
Proof. pose proof Hok as H. accepted H. apply implementation_cost_pos. Qed.

Lemma result_roi :
  (roi_percentage r
   == (annual_savings r - inject_Z (implementation_cost r))
      / inject_Z (implementation_cost r) * 100)%Q.
Proof. pose proof Hok as H. accepted H. reflexivity. Qed.

Lemma result_breakeven :
  breakeven_months r = breakeven_of (implementation_cost r) (annual_savings r).
Proof. pose proof Hok as H. accepted H. reflexivity. Qed.

Lemma result_tier :
  recommendation r = tier_of (roi_percentage r) (breakeven_months r).
Proof. pose proof Hok as H. accepted H. reflexivity. Qed.

Lemma result_risk :
  risk_level r = risk_of (65 # 100) (breakeven_months r) (complexity_score r)
                         (annual_savings r) (implementation_cost r).
Proof. pose proof Hok as H. accepted H. reflexivity. Qed.

(** ROI above [100 * k] percent, as a bound on the savings. *)
Lemma result_roi_above (k : Q) :
  (k * 100 < roi_percentage r)%Q <->
  ((k + 1) * inject_Z (implementation_cost r) < annual_savings r)%Q.
Proof. rewrite result_roi. apply roi_above, result_cost_pos. Qed.

Lemma roi_bounds_breakeven (k : Q) (n : Z) :
  (0 <= k)%Q -> 1 <= n -> (12 <= inject_Z n * (k + 1))%Q ->
  (k * 100 < roi_percentage r)%Q -> breakeven_months r <= n.
Proof.
  intros Hk Hn Hkn H. apply result_roi_above in H.
  pose proof result_cost_pos as Hi.
  set (i := inject_Z (implementation_cost r)) in *.
  set (s := annual_savings r) in *.
  assert (Hn' : (0 < inject_Z n)%Q).
  { change 0%Q with (inject_Z 0). rewrite <- Zlt_Qlt. lia. }
  assert (Hki : (0 <= k * i)%Q) by (apply Qmult_le_0_compat; lra).
  assert (Hs : (0 < s)%Q) by lra.
  rewrite result_breakeven. apply breakeven_within; [exact Hs | exact Hn |].
  fold i s.
  assert (H1 : (inject_Z n * ((k + 1) * i) <= inject_Z n * s)%Q).
  { apply Qmult_le_l; [exact Hn' | lra]. }
  assert (H2 : (12 * i <= inject_Z n * (k + 1) * i)%Q).
  { apply Qmult_le_compat_r; lra. }
  lra.
Qed.

End Accepted.

Ltac finish :=
  intros;
  repeat match goal with
         | H : _ /\ _ |- _ => destruct H
         | |- _ /\ _ => split
         end;
  first [reflexivity | assumption | discriminate | lia | lra | exfalso; lra].

(** The recommendation tier is decided by the ROI alone: above 200 percent
    the strongest tier, above 100 the good one, above 50 the moderate one,
    else the concerns tier.  The tests on breakeven_months never decide:
    an ROI above 200 percent breaks even within 4 months, one above 100
    percent within 6. *)
Theorem recommendation_by_roi (data : ProjectionInput) (r : ProjectionResult) :
  calculate_roi data = Ok r ->
  (recommendation r = StrongROI <-> (200 < roi_percentage r)%Q) /\
  (recommendation r = GoodROI <->
     (100 < roi_percentage r)%Q /\ (roi_percentage r <= 200)%Q) /\
  (recommendation r = ModerateROI <->
     (50 < roi_percentage r)%Q /\ (roi_percentage r <= 100)%Q) /\
  (recommendation r = ROIConcerns <-> (roi_percentage r <= 50)%Q) /\
  ((200 < roi_percentage r)%Q -> breakeven_months r <= 4) /\
  ((100 < roi_percentage r)%Q -> breakeven_months r <= 6).
Proof.
  intros Hok.
  assert (B200 : (200 < roi_percentage r)%Q -> breakeven_months r <= 4).
  { intros H. apply (roi_bounds_breakeven data r Hok 2 4); try lia.
    - discriminate.
    - vm_compute. discriminate.
    - exact H. }
  assert (B100 : (100 < roi_percentage r)%Q -> breakeven_months r <= 6).
  { intros H. apply (roi_bounds_breakeven data r Hok 1 6); try lia.
    - discriminate.
    - vm_compute. discriminate.
    - exact H. }
  rewrite (result_tier data r Hok). unfold tier_of.
  set (roi := roi_percentage r) in *. set (b := breakeven_months r) in *.
  destruct (Py.Qgtb roi 200) eqn:H2;
    [apply PyFacts.Qgtb_true in H2 | apply PyFacts.Qgtb_false in H2].
  { specialize (B200 H2). destruct (Z.leb_spec b 12); [|lia]. cbn [andb].
    repeat split; finish. }
  cbn [andb].
  destruct (Py.Qgtb roi 100) eqn:H1;
    [apply PyFacts.Qgtb_true in H1 | apply PyFacts.Qgtb_false in H1].
  { specialize (B100 H1). destruct (Z.leb_spec b 18); [|lia]. cbn [andb].
    repeat split; finish. }
  cbn [andb].
  destruct (Py.Qgtb roi 50) eqn:H5;
    [apply PyFacts.Qgtb_true in H5 | apply PyFacts.Qgtb_false in H5];
    repeat split; finish.
Qed.

Lemma recommendation_by_roi_witness :
  recommendation (project invoice_processing "Invoice Processing") = StrongROI /\
  breakeven_months (project invoice_processing "Invoice Processing") <= 4.
Proof.
  destruct (recommendation_by_roi invoice_processing _ eq_refl)
    as (Hs & _ & _ & _ & Hb & _).
  split; [apply Hs | apply Hb]; vm_compute; reflexivity.
Defined.

(** breakeven_months is never below 1, and a projection whose annual
    savings cover the implementation cost breaks even within 12 months. *)
Theorem breakeven_months_bounds (data : ProjectionInput) (r : ProjectionResult) :
  calculate_roi data = Ok r ->
  1 <= breakeven_months r /\
  ((inject_Z (implementation_cost r) <= annual_savings r)%Q ->
     breakeven_months r <= 12).
Proof.
  intros Hok. rewrite (result_breakeven data r Hok).
  split; [apply breakeven_at_least_1|].
  intros H. pose proof (result_cost_pos data r Hok) as Hi.
  apply breakeven_within; [lra | lia |].
  change (inject_Z 12) with 12%Q. lra.
Qed.

Lemma breakeven_months_bounds_witness :
  1 <= breakeven_months (project invoice_processing "Invoice Processing") <= 12.
Proof.
  destruct (breakeven_months_bounds invoice_processing _ eq_refl) as (H1 & H12).
  split; [exact H1 | apply H12; vm_compute; discriminate].
Defined.

(** A projection that saves nothing or loses money has breakeven_months
    999, risk High, the concerns tier and an ROI of -100 percent or less. *)
Theorem no_savings_projection (data : ProjectionInput) (r : ProjectionResult) :
  calculate_roi data = Ok r -> (annual_savings r <= 0)%Q ->
  breakeven_months r = 999 /\ risk_level r = High /\
  recommendation r = ROIConcerns /\ (roi_percentage r <= -100)%Q.
Proof.
  intros Hok Hs.
  pose proof (result_cost_pos data r Hok) as Hi.
  assert (Hb : breakeven_months r = 999).
  { rewrite (result_breakeven data r Hok). unfold breakeven_of.
    apply PyFacts.Qgtb_false in Hs. now rewrite Hs. }
  assert (Hroi : (roi_percentage r <= -100)%Q).
  { apply Qnot_lt_le. intros H.
    assert (H' : ((-1) * 100 < roi_percentage r)%Q) by lra.
    apply (result_roi_above data r Hok) in H'. lra. }
  split; [exact Hb|]. split; [|split; [|exact Hroi]].
  - rewrite (result_risk data r Hok), Hb. reflexivity.
  - rewrite (result_tier data r Hok). unfold tier_of.
    assert (H200 : Py.Qgtb (roi_percentage r) 200 = false)
      by (apply PyFacts.Qgtb_false; lra).
    assert (H100 : Py.Qgtb (roi_percentage r) 100 = false)
      by (apply PyFacts.Qgtb_false; lra).
    assert (H50 : Py.Qgtb (roi_percentage r) 50 = false)
      by (apply PyFacts.Qgtb_false; lra).
    now rewrite H200, H100, H50.
Qed.

Lemma no_savings_projection_witness :
  breakeven_months (project idle_process "Filing") = 999 /\
  risk_level (project idle_process "Filing") = High /\
  recommendation (project idle_process "Filing") = ROIConcerns.
Proof.
  destruct (no_savings_projection idle_process _ eq_refl) as (Hb & Hr & Ht & _).
  - vm_compute. discriminate.
  - repeat split; assumption.
Defined.

(** The complexity score is 6 exactly when the four conditions hold. *)
Lemma complexity_six (hours people : Z) (name : string) :
  5 < complexity hours people name <->
  40 < hours /\ 5 < people /\ data_process name = true /\ customer_facing name = true.
Proof.
  unfold complexity, high_volume, many_stakeholders.
  destruct (Z.ltb_spec 40 hours), (Z.ltb_spec 5 people),
    (data_process name), (customer_facing name); simpl;
    split; intros K; try lia; try (repeat split; (lia || reflexivity));
    destruct K as (? & ? & ? & ?); try lia; try discriminate.
Qed.

(** Risk Medium is reported exactly for the requests that meet the four
    complexity conditions and break even within 18 months, whether or not
    the savings cover the implementation cost; risk Low implies that they
    do, that the ROI is not negative and that breakeven is within 12
    months. *)
Theorem risk_level_meaning (data : ProjectionInput) (r : ProjectionResult)
    (name : string) :
  calculate_roi data = Ok r -> process_name data = Some name ->
  (risk_level r = Medium <->
     breakeven_months r <= 18 /\ 40 < hours_per_week data /\ 5 < people_count data /\
     data_process name = true /\ customer_facing name = true) /\
  (risk_level r = Low ->
     (inject_Z (implementation_cost r) <= annual_savings r)%Q /\
     (0 <= roi_percentage r)%Q /\ breakeven_months r <= 12 /\
     complexity_score r <= 5).
Proof.
  intros Hok Hname.
  pose proof (breakeven_months_bounds data r Hok) as (_ & H12).
  pose proof (result_roi_above data r Hok 0) as Hroi.
  pose proof (result_risk data r Hok) as Hrisk.
  assert (Hscore : complexity_score r
                   = complexity (hours_per_week data) (people_count data) name).
  { pose proof Hok as H. accepted H.
    assert (name0 = name) as -> by congruence. reflexivity. }
  rewrite <- complexity_six, <- Hscore.
  unfold risk_of in Hrisk. change (Py.Qgtb (65 # 100) (8 # 10)) with false in Hrisk.
  destruct (Z.ltb_spec 18 (breakeven_months r)) as [Hb|Hb].
  { rewrite Hrisk. split; [split; [discriminate | lia] | discriminate]. }
  destruct (Z.ltb_spec 5 (complexity_score r)) as [Hc|Hc].
  { rewrite Hrisk. split; [split; [intros _; split; assumption | reflexivity]
                          | discriminate]. }
  destruct (Py.Qltb (annual_savings r) (inject_Z (implementation_cost r))) eqn:Hs;
    [apply PyFacts.Qltb_true in Hs | apply PyFacts.Qltb_false in Hs]; rewrite Hrisk.
  { split; [split; [discriminate | lia] | discriminate]. }
  split; [split; [discriminate | lia]|].
  intros _. split; [exact Hs|]. split; [|split; [now apply H12 | exact Hc]].
  apply Qnot_lt_le. intros Hneg.
  assert (Hle : ~ (0 * 100 < roi_percentage r)%Q) by lra.
  destruct (Qlt_le_dec (inject_Z (implementation_cost r)) (annual_savings r)) as [Hlt|Hle2].
  - apply Hle, Hroi. lra.
  - assert (E : (annual_savings r == inject_Z (implementation_cost r))%Q) by lra.
    rewrite (result_roi data r Hok), E in Hneg.
    pose proof (result_cost_pos data r Hok) as Hi.
    assert (Z0 : ((inject_Z (implementation_cost r) - inject_Z (implementation_cost r))
                  / inject_Z (implementation_cost r) * 100 == 0)%Q) by (field; lra).
    rewrite Z0 in Hneg. lra.
Qed.

Lemma risk_level_meaning_witness :
  risk_level (project Runs.big_cheap_desk "Customer Data Desk") = Medium /\
  (annual_savings (project Runs.big_cheap_desk "Customer Data Desk")
   < inject_Z (implementation_cost (project Runs.big_cheap_desk "Customer Data Desk")))%Q.
Proof.
  destruct (risk_level_meaning Runs.big_cheap_desk _ "Customer Data Desk" eq_refl eq_refl)
    as (Hm & _).
  split; [apply Hm; vm_compute; repeat split; discriminate | vm_compute; reflexivity].
Defined.

(** At equal implementation cost, larger positive savings never break even
    later. *)
Theorem breakeven_antitone (d1 d2 : ProjectionInput) (r1 r2 : ProjectionResult) :
  calculate_roi d1 = Ok r1 -> calculate_roi d2 = Ok r2 ->
  implementation_cost r1 = implementation_cost r2 ->
  (0 < annual_savings r1)%Q -> (annual_savings r1 <= annual_savings r2)%Q ->
  breakeven_months r2 <= breakeven_months r1.
Proof.
  intros H1 H2 Hi Hpos Hle.
  pose proof (result_cost_pos d1 r1 H1) as Hc.
  rewrite (result_breakeven d1 r1 H1), (result_breakeven d2 r2 H2), <- Hi.
  unfold breakeven_of.
  assert (Hpos2 : (0 < annual_savings r2)%Q) by lra.
  apply PyFacts.Qgtb_true in Hpos as B1. apply PyFacts.Qgtb_true in Hpos2 as B2.
  rewrite B1, B2. apply Z.max_le_compat_l, PyMore.round_mono.
  set (i := inject_Z (implementation_cost r1)) in *.
  set (s1 := annual_savings r1) in *. set (s2 := annual_savings r2) in *.
  assert (E1 : (i / s1 * 12 == i * 12 / s1)%Q) by (field; lra).
  assert (E2 : (i / s2 * 12 == i * 12 / s2)%Q) by (field; lra).
  rewrite E1, E2.
  apply Qle_shift_div_l; [exact Hpos|].
  assert (E3 : (i * 12 / s2 * s1 == (i * 12) * s1 / s2)%Q) by (field; lra).
  rewrite E3. apply Qle_shift_div_r; [exact Hpos2|].
  apply Qmult_le_l; lra.
Qed.

Lemma breakeven_antitone_witness :
  breakeven_months (project invoice_processing "Invoice Processing")
  <= breakeven_months (project Observations.retail_at_cost "Order Entry").
Proof.
  apply (breakeven_antitone Observations.retail_at_cost invoice_processing _ _ eq_refl eq_refl).
  - reflexivity.
  - vm_compute. reflexivity.
  - vm_compute. discriminate.
Defined.

(** The keyword conditions look for the words anywhere in the process name,
    whatever the case of its letters: the data condition holds exactly
    when the lowered name reads some text, "data" or "analysis", some
    text; the customer condition likewise with "customer" or "support". *)
Theorem keyword_conditions (name : string) :
  (data_process name = true <->
     exists pre post,
       Py.lower name = (pre ++ "data" ++ post)%string \/
       Py.lower name = (pre ++ "analysis" ++ post)%string) /\
  (customer_facing name = true <->
     exists pre post,
       Py.lower name = (pre ++ "customer" ++ post)%string \/
       Py.lower name = (pre ++ "support" ++ post)%string) /\
  data_process (Py.lower name) = data_process name /\
  customer_facing (Py.lower name) = customer_facing name.
Proof.
  unfold data_process, customer_facing. rewrite !PyMore.lower_idem.
  rewrite !orb_true_iff, !PyMore.contains_substring.
  repeat split; try reflexivity.
  - intros [(pre & post & E)|(pre & post & E)]; exists pre, post; auto.
  - intros (pre & post & [E|E]); [left | right]; now exists pre, post.
  - intros [(pre & post & E)|(pre & post & E)]; exists pre, post; auto.
  - intros (pre & post & [E|E]); [left | right]; now exists pre, post.
Qed.

End EstimatorMore.

(** ** More on the pattern aggregator *)

Module AggregatorMore.
Import Store CIPEngineROI Observations.

(** The incremental mean of [a] (over [f] values) and [x] lies between
    them and keeps the total. *)
Lemma incremental_mean (a x : Q) (f : Z) :
  1 <= f ->
  let a' := ((a * inject_Z f + x) / inject_Z (f + 1))%Q in
  (a' * inject_Z (f + 1) == a * inject_Z f + x)%Q /\
  ((a <= x)%Q -> (a <= a')%Q /\ (a' <= x)%Q) /\
  ((x <= a)%Q -> (x <= a')%Q /\ (a' <= a)%Q).
Proof.
  intros Hf. cbv zeta.
  assert (HF : (1 <= inject_Z f)%Q).
  { change 1%Q with (inject_Z 1). now rewrite <- Zle_Qle. }
  rewrite inject_Z_plus. change (inject_Z 1) with 1%Q.
  set (F := inject_Z f) in *.
  assert (Hpos : (0 < F + 1)%Q) by lra.
  split; [field; lra|].
  split; intros H.
  - assert (Hm : (a * F <= x * F)%Q) by (apply Qmult_le_compat_r; lra).
    split.
    + apply Qle_shift_div_l; [exact Hpos | lra].
    + apply Qle_shift_div_r; [exact Hpos | lra].
  - assert (Hm : (x * F <= a * F)%Q) by (apply Qmult_le_compat_r; lra).
    split.
    + apply Qle_shift_div_l; [exact Hpos | lra].
    + apply Qle_shift_div_r; [exact Hpos | lra].
Qed.

(** One more observation under a key that has a record: the frequency
    grows by one, the totals [average * frequency] grow by the observed
    values, each new average lies between the old one and the observed
    value, and no other key is touched. *)
Theorem upsert_existing (k : pattern_key) (s r : Q) (tbl : gmap pattern_key Pattern)
    (old : Pattern) :
  tbl !! k = Some old -> 1 <= frequency old ->
  exists new,
    upsert k s r tbl !! k = Some new /\
    frequency new = frequency old + 1 /\
    (avg_savings new * inject_Z (frequency new)
     == avg_savings old * inject_Z (frequency old) + s)%Q /\
    (avg_roi new * inject_Z (frequency new)
     == avg_roi old * inject_Z (frequency old) + r)%Q /\
    ((avg_savings old <= s)%Q ->
       (avg_savings old <= avg_savings new)%Q /\ (avg_savings new <= s)%Q) /\
    ((s <= avg_savings old)%Q ->
       (s <= avg_savings new)%Q /\ (avg_savings new <= avg_savings old)%Q) /\
    (forall k', k' <> k -> upsert k s r tbl !! k' = tbl !! k').
Proof.
  intros Hk Hf. unfold upsert. rewrite Hk.
  eexists. split; [apply lookup_insert_eq|].
  cbn [frequency avg_savings avg_roi].
  destruct (incremental_mean (avg_savings old) s (frequency old) Hf) as (Es & Hup & Hdown).
  destruct (incremental_mean (avg_roi old) r (frequency old) Hf) as (Er & _ & _).
  repeat split; try assumption; try (now apply Hup); try (now apply Hdown).
  intros k' Hne. apply lookup_insert_ne. congruence.
Qed.

Lemma upsert_existing_witness :
  exists new,
    upsert high_value_key 90000 1025
      (upsert high_value_key 60000 650 ∅) !! high_value_key = Some new /\
    frequency new = 2 /\ (avg_savings new * 2 == 150000)%Q.
Proof.
  destruct (upsert_existing high_value_key 90000 1025
              (upsert high_value_key 60000 650 ∅)
              {| frequency := 1; avg_savings := 60000; avg_roi := 650 |})
    as (new & Hn & Hf & Hs & _).
  - vm_compute. reflexivity.
  - simpl. lia.
  - exists new. split; [exact Hn|]. split; [exact Hf|].
    rewrite Hf in Hs. exact Hs.
Defined.

Lemma upsert_keeps (k k' : pattern_key) (s r : Q) (tbl : gmap pattern_key Pattern) :
  is_Some (tbl !! k') -> is_Some (upsert k s r tbl !! k').
Proof.
  intros H. destruct (decide (k = k')) as [<-|Hne].
  - unfold upsert. destruct (tbl !! k); rewrite lookup_insert_eq; eauto.
  - now rewrite AggregatorProps.upsert_other.
Qed.

Lemma fold_obs_keeps (obs : list observation) :
  forall (tbl : gmap pattern_key Pattern) (k : pattern_key),
    is_Some (tbl !! k) -> is_Some (fold_obs tbl obs !! k).
Proof.
  induction obs as [|o obs IH]; intros tbl k H; [exact H|].
  cbn [fold_obs foldl]. apply IH. now apply upsert_keeps.
Qed.

Lemma fold_obs_other (obs : list observation) (k : pattern_key) :
  forall tbl : gmap pattern_key Pattern,
    Forall (fun o => o.1 <> k) obs -> fold_obs tbl obs !! k = tbl !! k.
Proof.
  induction obs as [|o obs IH]; intros tbl H; [reflexivity|].
  apply Forall_cons in H as [Ho H]. cbn [fold_obs foldl].
  fold (fold_obs (upsert_obs tbl o) obs). rewrite IH by exact H.
  unfold upsert_obs. now apply AggregatorProps.upsert_other.
Qed.

(** The keys under which one projection can be observed. *)
Lemma merged_keys (pd : ProjectionData) (o : observation) :
  o ∈ merged_observations pd ->
  (exists ind, industry pd = Some ind /\ o.1 = industry_key ind) \/
  o.1 = process_key (process_name pd) \/ o.1 = high_value_key.
Proof.
  unfold merged_observations. rewrite !elem_of_app.
  intros [H|[H|H]].
  - destruct (industry pd) as [ind|]; [|now apply elem_of_nil in H].
    destruct (_ && _ && _); [|now apply elem_of_nil in H].
    apply list_elem_of_singleton in H as ->. left. eauto.
  - destruct (_ && _); [|now apply elem_of_nil in H].
    apply list_elem_of_singleton in H as ->. right; now left.
  - destruct (_ && _); [|now apply elem_of_nil in H].
    apply list_elem_of_singleton in H as ->. right; now right.
Qed.

(** [log_patterns] never removes a pattern, changes no record but those
    under the industry, the process name and the high-value key of the
    projection, and leaves [roi_projections] as it is. *)
Theorem log_patterns_frame (pd : ProjectionData) (db : Database) (k : pattern_key) :
  (is_Some (roi_patterns db !! k) -> is_Some (roi_patterns (log_patterns pd db) !! k)) /\
  ((forall ind, industry pd = Some ind -> k <> industry_key ind) ->
   k <> process_key (process_name pd) -> k <> high_value_key ->
   roi_patterns (log_patterns pd db) !! k = roi_patterns db !! k) /\
  roi_projections (log_patterns pd db) = roi_projections db.
Proof.
  rewrite AggregatorProps.log_patterns_patterns, AggregatorProps.log_rows_fold.
  split; [apply fold_obs_keeps|]. split.
  - intros Hi Hp Hh. apply fold_obs_other. apply Forall_forall.
    intros o Ho E. apply merged_keys in Ho as [(ind & Hind & Ho)|[Ho|Ho]].
    + apply (Hi ind Hind). congruence.
    + congruence.
    + congruence.
  - unfold log_patterns, check_analysis_trigger, analyze_patterns.
    cbn [roi_projections]. destruct (_ =? 0); reflexivity.
Qed.

Lemma log_patterns_frame_witness :
  roi_patterns (log_patterns retail_small (log_patterns retail_large empty_db))
    !! process_key "Order Entry"
  = roi_patterns (log_patterns retail_large empty_db) !! process_key "Order Entry" /\
  is_Some (roi_patterns (log_patterns retail_small (log_patterns retail_large empty_db))
             !! high_value_key).
Proof.
  split.
  - destruct (log_patterns_frame retail_small (log_patterns retail_large empty_db)
                (process_key "Order Entry")) as (_ & Hframe & _).
    apply Hframe.
    + intros ind Hind. injection Hind as <-. discriminate.
    + discriminate.
    + discriminate.
  - destruct (log_patterns_frame retail_small (log_patterns retail_large empty_db)
                high_value_key) as (Hkeep & _).
    apply Hkeep. vm_compute. eauto.
Defined.

End AggregatorMore.

(** ** Sequences of requests: what the tables hold *)

Module RunsProps.
Import Store CIPEngineROI Observations Runs.

Lemma log_patterns_rows (pd : ProjectionData) (db : Database) :
  roi_projections (log_patterns pd db) = roi_projections db.
Proof.
  unfold log_patterns, check_analysis_trigger, analyze_patterns.
  cbn [roi_projections]. destruct (_ =? 0); reflexivity.
Qed.

(** One request: nothing stored if it is refused, else one row appended and
    its observations folded. *)
Lemma handle_calculate_stored (req : Estimator.ProjectionInput) (db : Database) :
  match stored_row req with
  | None => (Handler.handle_calculate req db).2 = db
  | Some row =>
      roi_projections (Handler.handle_calculate req db).2 = roi_projections db ++ [row] /\
      roi_patterns (Handler.handle_calculate req db).2
      = fold_obs (roi_patterns db) (merged_observations (data_of_row row))
  end.
Proof.
  unfold stored_row, Handler.handle_calculate.
  destruct (Estimator.calculate_roi req) as [r|msg]; [|reflexivity].
  destruct (Estimator.process_name req) as [name|]; [|reflexivity].
  cbn [snd]. rewrite log_patterns_rows, AggregatorProps.log_patterns_patterns,
    AggregatorProps.log_rows_fold.
  split; reflexivity.
Qed.

Lemma handle_all_snoc (reqs : list Estimator.ProjectionInput)
    (req : Estimator.ProjectionInput) (db : Database) :
  handle_all (reqs ++ [req]) db = (Handler.handle_calculate req (handle_all reqs db)).2.
Proof. unfold handle_all. now rewrite foldl_app. Qed.

(** The patterns follow the rows: after any requests on an empty store each
    record summarises the observations of the stored rows. *)
Lemma handle_all_tracks (reqs : list Estimator.ProjectionInput) :
  tracks (roi_patterns (handle_all reqs empty_db))
         (flat_map merged_observations
            (map data_of_row (roi_projections (handle_all reqs empty_db)))).
Proof.
  induction reqs as [|req reqs IH] using rev_ind.
  - apply AggregatorProps.tracks_empty.
  - rewrite handle_all_snoc.
    pose proof (handle_calculate_stored req (handle_all reqs empty_db)) as H.
    destruct (stored_row req) as [row|].
    + destruct H as [Hr Hp]. rewrite Hr, Hp, map_app, flat_map_app.
      cbn [map flat_map]. rewrite app_nil_r.
      now apply AggregatorProps.tracks_fold.
    + now rewrite H.
Qed.

Lemma matching_flat_map (A : Type) (k : pattern_key) (f : A -> list observation)
    (l : list A) :
  matching k (flat_map f l) = flat_map (fun x => matching k (f x)) l.
Proof.
  induction l as [|x l IH]; [reflexivity|].
  cbn [flat_map]. now rewrite AggregatorProps.matching_app, IH.
Qed.

Lemma matching_single (k k' : pattern_key) (v : Q * Q) :
  matching k [(k', v)] = if decide (k' = k) then [v] else [].
Proof.
  unfold matching. destruct (decide (k' = k)) as [E|E].
  - now rewrite (filter_cons_True (fun o : observation => o.1 = k)) by exact E.
  - now rewrite (filter_cons_False (fun o : observation => o.1 = k)) by exact E.
Qed.

Lemma flat_map_if (A B : Type) (P : A -> Prop) `{forall x, Decision (P x)}
    (g : A -> B) (l : list A) :
  flat_map (fun x => if decide (P x) then [g x] else []) l = map g (filter P l).
Proof.
  induction l as [|x l IH]; [reflexivity|].
  cbn [flat_map]. rewrite IH. destruct (decide (P x)) as [Hx|Hx].
  - now rewrite filter_cons_True by exact Hx.
  - now rewrite filter_cons_False by exact Hx.
Qed.

Lemma flat_map_ext' (A B : Type) (f g : A -> list B) (l : list A) :
  (forall x, f x = g x) -> flat_map f l = flat_map g l.
Proof. intros H. induction l as [|x l IH]; [reflexivity|]. cbn. now rewrite H, IH. Qed.

Lemma truthy_high (s : Q) :
  Py.Qtruthy s && Py.Qgtb s 50000 = Py.Qgtb s 50000.
Proof.
  destruct (Py.Qgtb s 50000) eqn:E; [|apply andb_false_r].
  apply PyFacts.Qgtb_true in E. rewrite andb_true_r.
  apply PyFacts.Qtruthy_true. intros Z. rewrite Z in E. vm_compute in E. discriminate E.
Qed.

(** The observations of one stored row, key by key. *)
Lemma matching_row_process (name : string) (row : ProjectionRow) :
  name <> EmptyString ->
  matching (process_key name) (merged_observations (data_of_row row))
  = if decide (row_process_name row = name /\ Py.Qtruthy (row_annual_savings row) = true)
    then [(row_annual_savings row, row_roi_percentage row)] else [].
Proof.
  intros Hne. unfold merged_observations.
  cbn [industry process_name annual_savings roi_percentage data_of_row].
  rewrite !AggregatorProps.matching_app.
  assert (E1 : matching (process_key name)
                 match row_industry row with
                 | Some ind =>
                     if Py.truthy ind && Py.Qtruthy (row_annual_savings row)
                        && Py.Qtruthy (row_roi_percentage row)
                     then [(industry_key ind, (row_annual_savings row, row_roi_percentage row))]
                     else []
                 | None => []
                 end = []).
  { destruct (row_industry row) as [ind|]; [|reflexivity].
    destruct (_ && _ && _); [|reflexivity].
    rewrite matching_single. now destruct (decide _). }
  assert (E3 : matching (process_key name)
                 (if Py.Qtruthy (row_annual_savings row)
                     && Py.Qgtb (row_annual_savings row) 50000
                  then [(high_value_key, (row_annual_savings row, row_roi_percentage row))]
                  else []) = []).
  { match goal with |- context [if ?c then _ else _] => destruct c end; [|reflexivity].
    rewrite matching_single. now destruct (decide _). }
  rewrite E1, E3, app_nil_r. cbn [app].
  destruct (Py.truthy (row_process_name row)) eqn:Ht;
    destruct (Py.Qtruthy (row_annual_savings row)) eqn:Hs; cbn [andb].
  - rewrite matching_single.
    destruct (decide (process_key (row_process_name row) = process_key name)) as [E|E];
      destruct (decide _) as [[En _]|D]; try reflexivity.
    + exfalso. apply D. split; [now injection E | reflexivity].
    + exfalso. apply E. now rewrite En.
  - destruct (decide _) as [[_ D]|D]; [discriminate D | reflexivity].
  - destruct (decide _) as [[En _]|D]; [|reflexivity].
    exfalso. rewrite En in Ht. apply PyFacts.truthy_true in Hne. congruence.
  - destruct (decide _) as [[_ D]|D]; [discriminate D | reflexivity].
Qed.

Lemma matching_row_industry (ind : string) (row : ProjectionRow) :
  ind <> EmptyString ->
  matching (industry_key ind) (merged_observations (data_of_row row))
  = if decide (row_industry row = Some ind /\
               Py.Qtruthy (row_annual_savings row) = true /\
               Py.Qtruthy (row_roi_percentage row) = true)
    then [(row_annual_savings row, row_roi_percentage row)] else [].
Proof.
  intros Hne. unfold merged_observations.
  cbn [industry process_name annual_savings roi_percentage data_of_row].
  rewrite !AggregatorProps.matching_app.
  assert (E2 : matching (industry_key ind)
                 (if Py.truthy (row_process_name row)
                     && Py.Qtruthy (row_annual_savings row)
                  then [(process_key (row_process_name row),
                         (row_annual_savings row, row_roi_percentage row))]
                  else []) = []).
  { match goal with |- context [if ?c then _ else _] => destruct c end; [|reflexivity].
    rewrite matching_single. now destruct (decide _). }
  assert (E3 : matching (industry_key ind)
                 (if Py.Qtruthy (row_annual_savings row)
                     && Py.Qgtb (row_annual_savings row) 50000
                  then [(high_value_key, (row_annual_savings row, row_roi_percentage row))]
                  else []) = []).
  { match goal with |- context [if ?c then _ else _] => destruct c end; [|reflexivity].
    rewrite matching_single. now destruct (decide _). }
  rewrite E2, E3, !app_nil_r.
  destruct (row_industry row) as [i|].
  - destruct (Py.truthy i) eqn:Ht;
      destruct (Py.Qtruthy (row_annual_savings row)) eqn:Hs;
      destruct (Py.Qtruthy (row_roi_percentage row)) eqn:Hr; cbn [andb];
      try (destruct (decide _) as [(D1 & D2 & D3)|D];
           [discriminate D2 || discriminate D3 | reflexivity]).
    + rewrite matching_single.
      destruct (decide (industry_key i = industry_key ind)) as [E|E];
        destruct (decide _) as [(En & _ & _)|D]; try reflexivity.
      * exfalso. apply D. repeat split. now injection E as ->.
      * exfalso. apply E. now injection En as ->.
    + destruct (decide _) as [(En & _ & _)|D]; [|reflexivity].
      exfalso. injection En as ->. apply PyFacts.truthy_true in Hne. congruence.
  - destruct (decide _) as [(En & _ & _)|D]; [discriminate En | reflexivity].
Qed.

Lemma matching_row_high_value (row : ProjectionRow) :
  matching high_value_key (merged_observations (data_of_row row))
  = if decide (Py.Qgtb (row_annual_savings row) 50000 = true)
    then [(row_annual_savings row, row_roi_percentage row)] else [].
Proof.
  unfold merged_observations.
  cbn [industry process_name annual_savings roi_percentage data_of_row].
  rewrite !AggregatorProps.matching_app, truthy_high.
  assert (E1 : matching high_value_key
                 match row_industry row with
                 | Some ind =>
                     if Py.truthy ind && Py.Qtruthy (row_annual_savings row)
                        && Py.Qtruthy (row_roi_percentage row)
                     then [(industry_key ind, (row_annual_savings row, row_roi_percentage row))]
                     else []
                 | None => []
                 end = []).
  { destruct (row_industry row) as [ind|]; [|reflexivity].
    destruct (_ && _ && _); [|reflexivity].
    rewrite matching_single. now destruct (decide _). }
  assert (E2 : matching high_value_key
                 (if Py.truthy (row_process_name row)
                     && Py.Qtruthy (row_annual_savings row)
                  then [(process_key (row_process_name row),
                         (row_annual_savings row, row_roi_percentage row))]
                  else []) = []).
  { match goal with |- context [if ?c then _ else _] => destruct c end; [|reflexivity].
    rewrite matching_single. now destruct (decide _). }
  rewrite E1, E2. cbn [app].
  destruct (Py.Qgtb (row_annual_savings row) 50000).
  - rewrite matching_single. destruct (decide (high_value_key = high_value_key));
      [|contradiction]. now destruct (decide (true = true)).
  - now destruct (decide (false = true)).
Qed.

Lemma matching_rows (k : pattern_key) (P : ProjectionRow -> Prop)
    `{forall r, Decision (P r)} (rows : list ProjectionRow) :
  (forall row, matching k (merged_observations (data_of_row row))
               = if decide (P row)
                 then [(row_annual_savings row, row_roi_percentage row)] else []) ->
  matching k (flat_map merged_observations (map data_of_row rows))
  = values_where P rows.
Proof.
  intros Hrow. rewrite matching_flat_map, flat_map_concat_map, map_map,
    <- flat_map_concat_map.
  rewrite (flat_map_ext' _ _ _ _ rows Hrow). apply flat_map_if.
Qed.

(** After any requests on an empty store, the record under a process name
    summarises the stored rows of that name whose savings are not 0, and
    the record under an industry the stored rows of that industry whose
    savings and ROI are not 0: there is a record exactly when there is
    such a row, its frequency is their number and its averages are their
    means. *)
Theorem patterns_follow_rows (reqs : list Estimator.ProjectionInput) (name ind : string) :
  name <> EmptyString -> ind <> EmptyString ->
  let db := handle_all reqs empty_db in
  summarises (roi_patterns db !! process_key name)
    (values_where (fun r => row_process_name r = name /\
                            Py.Qtruthy (row_annual_savings r) = true)
                  (roi_projections db)) /\
  summarises (roi_patterns db !! industry_key ind)
    (values_where (fun r => row_industry r = Some ind /\
                            Py.Qtruthy (row_annual_savings r) = true /\
                            Py.Qtruthy (row_roi_percentage r) = true)
                  (roi_projections db)).
Proof.
  intros Hname Hind db. subst db. split.
  - rewrite <- (matching_rows (process_key name)).
    + apply handle_all_tracks.
    + intros row. now apply matching_row_process.
  - rewrite <- (matching_rows (industry_key ind)).
    + apply handle_all_tracks.
    + intros row. now apply matching_row_industry.
Qed.

Lemma patterns_follow_rows_witness :
  exists p,
    roi_patterns (handle_all [Estimator.invoice_processing; retail_at_cost;
                              Estimator.invoice_processing] empty_db)
      !! process_key "Invoice Processing" = Some p /\
    frequency p = 2 /\ (avg_savings p == 120000)%Q /\
    roi_patterns (handle_all [Estimator.invoice_processing; retail_at_cost;
                              Estimator.invoice_processing] empty_db)
      !! industry_key "Retail" = None.
Proof.
  destruct (patterns_follow_rows
              [Estimator.invoice_processing; retail_at_cost; Estimator.invoice_processing]
              "Invoice Processing" "Retail" ltac:(discriminate) ltac:(discriminate))
    as (Hp & Hi).
  apply AggregatorProps.summarises_proper in Hp as (p & Hp & Hf & Hs & _);
    [|vm_compute; discriminate].
  exists p. split; [exact Hp|]. split; [exact Hf|].
  split; [rewrite Hs; vm_compute; reflexivity | exact Hi].
Defined.

Lemma Qsum_above (c : Q) (l : list Q) :
  Forall (fun x => (c < x)%Q) l -> l <> [] ->
  (c * inject_Z (Z.of_nat (length l)) < Qsum l)%Q.
Proof.
  induction 1 as [|x l Hx Hl IH]; intros Hne; [contradiction|].
  cbn [length Qsum foldr]. rewrite Nat2Z.inj_succ, <- Z.add_1_r, inject_Z_plus.
  change (inject_Z 1) with 1%Q. fold (Qsum l).
  destruct l as [|y l].
  - change (inject_Z (Z.of_nat (length (@nil Q)))) with 0%Q.
    change (Qsum []) with 0%Q. lra.
  - assert (H : (c * inject_Z (Z.of_nat (length (y :: l))) < Qsum (y :: l))%Q)
      by (apply IH; discriminate).
    lra.
Qed.

Lemma avg_above (c : Q) (l : list Q) :
  Forall (fun x => (c < x)%Q) l -> l <> [] -> (c < avg l)%Q.
Proof.
  intros H Hne. unfold avg.
  apply Qlt_shift_div_l; [now apply AggregatorProps.count_pos|].
  now apply Qsum_above.
Qed.

(** After any requests on an empty store, the high-value record summarises
    the stored rows that save more than 50000: it exists exactly when
    there is one, counts them, and its average savings are above 50000. *)
Theorem high_value_pattern (reqs : list Estimator.ProjectionInput) :
  let db := handle_all reqs empty_db in
  summarises (roi_patterns db !! high_value_key)
    (values_where (fun r => Py.Qgtb (row_annual_savings r) 50000 = true)
                  (roi_projections db)) /\
  (forall p, roi_patterns db !! high_value_key = Some p ->
     (50000 < avg_savings p)%Q /\
     1 <= frequency p <= Z.of_nat (length (roi_projections db))).
Proof.
  intros db. subst db.
  assert (Hsum : summarises
            (roi_patterns (handle_all reqs empty_db) !! high_value_key)
            (values_where (fun r => Py.Qgtb (row_annual_savings r) 50000 = true)
               (roi_projections (handle_all reqs empty_db)))).
  { rewrite <- (matching_rows high_value_key).
    - apply handle_all_tracks.
    - intros row. apply matching_row_high_value. }
  split; [exact Hsum|].
  intros p Hp. unfold values_where in Hsum.
  set (rows := roi_projections (handle_all reqs empty_db)) in *.
  set (big := filter (fun r => Py.Qgtb (row_annual_savings r) 50000 = true) rows) in *.
  destruct big as [|r0 big'] eqn:Ebig.
  - cbn in Hsum. congruence.
  - apply AggregatorProps.summarises_proper in Hsum as (p' & Hp' & Hf & Hs & _);
      [|discriminate].
    assert (p' = p) as -> by congruence.
    rewrite length_map in Hf. split.
    + rewrite Hs, map_map. cbn [fst]. apply avg_above; [|discriminate].
      apply Forall_map, Forall_forall. intros r Hr.
      assert (Hin : r ∈ filter (fun r => Py.Qgtb (row_annual_savings r) 50000 = true) rows)
        by (fold big; rewrite Ebig; exact Hr).
      apply list_elem_of_filter in Hin as [Hgt _].
      now apply PyFacts.Qgtb_true.
    + rewrite Hf. split; [cbn [length]; lia|].
      apply inj_le. rewrite <- Ebig. subst big. apply length_filter.
Qed.

Lemma high_value_pattern_witness :
  exists p,
    roi_patterns (handle_all [Estimator.invoice_processing; retail_at_cost] empty_db) !! high_value_key = Some p /\
    (50000 < avg_savings p)%Q /\ frequency p = 1.
Proof.
  destruct (high_value_pattern [Estimator.invoice_processing; retail_at_cost]) as (Hs & Hp).
  apply AggregatorProps.summarises_proper in Hs as (p & Hlook & Hf & _);
    [|vm_compute; discriminate].
  exists p. split; [exact Hlook|]. split; [apply (Hp p Hlook) | exact Hf].
Defined.

Lemma new_insights_length (rows : list ProjectionRow) :
  (length (new_insights rows) <= 2)%nat.
Proof.
  unfold new_insights.
  destruct (top_processes rows), (top_industries rows); cbn; lia.
Qed.




End RunsProps.

(** ** Grouping and ranking *)

Module RankingFacts.
Import Store CIPEngineROI Groups Order.

Section Sorting.
Context (field : Aggregate -> Q).

Lemma insert_desc_perm (a : Aggregate) (l : list Aggregate) :
  Permutation (insert_desc field a l) (a :: l).
Proof.
  induction l as [|b l IH]; cbn [insert_desc]; [reflexivity|].
  destruct (Qle_bool (field b) (field a)); [reflexivity|].
  rewrite IH. apply perm_swap.
Qed.

Lemma order_by_desc_perm (l : list Aggregate) :
  Permutation (order_by_desc field l) l.
Proof.
  induction l as [|a l IH]; [reflexivity|].
  cbn [order_by_desc foldr]. fold (order_by_desc field l).
  rewrite insert_desc_perm. now constructor.
Qed.

Lemma insert_desc_sorted (a : Aggregate) (l : list Aggregate) :
  StronglySorted (desc field) l -> StronglySorted (desc field) (insert_desc field a l).
Proof.
  induction 1 as [|b l Hl IH Hb]; cbn [insert_desc].
  - repeat constructor.
  - destruct (Qle_bool (field b) (field a)) eqn:E.
    + apply Qle_bool_iff in E. constructor; [now constructor|].
      constructor; [exact E|].
      apply Forall_forall. intros c Hc. rewrite Forall_forall in Hb.
      specialize (Hb c Hc). unfold desc in *. lra.
    + assert (Hlt : (field a < field b)%Q).
      { apply Qnot_le_lt. intros Hle. apply Qle_bool_iff in Hle. congruence. }
      constructor; [exact IH|].
      apply Forall_forall. intros c Hc.
      rewrite (insert_desc_perm a l) in Hc.
      apply elem_of_cons in Hc as [->|Hc].
      * unfold desc. lra.
      * rewrite Forall_forall in Hb. now apply Hb.
Qed.

Lemma order_by_desc_sorted (l : list Aggregate) :
  StronglySorted (desc field) (order_by_desc field l).
Proof.
  induction l as [|a l IH]; [constructor|].
  cbn [order_by_desc foldr]. now apply insert_desc_sorted.
Qed.

Lemma sorted_take (n : nat) (l : list Aggregate) :
  StronglySorted (desc field) l -> StronglySorted (desc field) (take n l).
Proof.
  intros H. revert n. induction H as [|a l Hl IH Ha]; intros [|n]; cbn; try constructor.
  - apply IH.
  - apply Forall_forall. intros c Hc. rewrite Forall_forall in Ha.
    apply Ha. eapply subseteq_take. exact Hc.
Qed.

(** Whatever is cut off by [LIMIT] ranks no higher than what is kept. *)
Lemma sorted_take_drop (n : nat) (l : list Aggregate) (a b : Aggregate) :
  StronglySorted (desc field) l -> a ∈ take n l -> b ∈ drop n l -> desc field a b.
Proof.
  intros H. revert n. induction H as [|c l Hl IH Hc]; intros [|n] Ha Hb; cbn in *.
  - now apply elem_of_nil in Ha.
  - now apply elem_of_nil in Ha.
  - now apply elem_of_nil in Ha.
  - apply elem_of_cons in Ha as [->|Ha].
    + rewrite Forall_forall in Hc. apply Hc.
      eapply subseteq_drop. exact Hb.
    + now apply (IH n).
Qed.

(** The first row of an ordered result is a maximum of the rows. *)
Lemma ordered_head_max (l : list Aggregate) (best : Aggregate) (rest : list Aggregate)
    (n : nat) :
  take (S n) (order_by_desc field l) = best :: rest ->
  best ∈ l /\ forall a, a ∈ l -> (field a <= field best)%Q.
Proof.
  intros H.
  pose proof (order_by_desc_sorted l) as Hs.
  pose proof (order_by_desc_perm l) as Hp.
  destruct (order_by_desc field l) as [|b sorted]; [discriminate H|].
  cbn in H. injection H as -> _.
  split.
  - rewrite <- Hp. left.
  - intros a Ha. rewrite <- Hp in Ha.
    apply elem_of_cons in Ha as [->|Ha]; [lra|].
    apply StronglySorted_inv in Hs as [_ Hall].
    rewrite Forall_forall in Hall. now apply Hall.
Qed.

Lemma ordered_nil (l : list Aggregate) (n : nat) :
  take (S n) (order_by_desc field l) = [] <-> l = [].
Proof.
  split; [|now intros ->].
  intros H. pose proof (order_by_desc_perm l) as Hp.
  destruct (order_by_desc field l); [|discriminate H].
  now apply Permutation_nil.
Qed.

End Sorting.

Section Grouping.
Context (key : ProjectionRow -> option string).

Lemma group_by_keys (rows : list ProjectionRow) :
  map agg_key (group_by key rows) = remove_dups (omap key rows).
Proof.
  unfold group_by. rewrite map_map. cbn [agg_key aggregate]. apply map_id.
Qed.

Lemma group_by_elem (rows : list ProjectionRow) (a : Aggregate) :
  a ∈ group_by key rows <->
  exists k, k ∈ omap key rows /\ a = aggregate k (group_rows key k rows).
Proof.
  unfold group_by. rewrite list_elem_of_fmap. split.
  - intros (k & -> & Hk). exists k. now rewrite elem_of_remove_dups in Hk.
  - intros (k & Hk & ->). exists k. now rewrite elem_of_remove_dups.
Qed.

Lemma group_by_nodup (rows : list ProjectionRow) :
  NoDup (map agg_key (group_by key rows)).
Proof. rewrite group_by_keys. apply NoDup_remove_dups. Qed.

Lemma group_count_pos (rows : list ProjectionRow) (k : string) :
  k ∈ omap key rows <-> (1 <= group_count key k rows)%nat.
Proof.
  split.
  - intros H. apply list_elem_of_omap in H as (r & Hr & Hk).
    unfold group_count.
    assert (Hin : r ∈ filter (fun r => key r = Some k) rows)
      by (apply list_elem_of_filter; split; assumption).
    destruct (filter _ rows); [now apply elem_of_nil in Hin | cbn; lia].
  - intros H. apply InsightProps.group_count_elem. lia.
Qed.

Lemma group_count_le (rows : list ProjectionRow) (k : string) :
  (group_count key k rows <= length rows)%nat.
Proof. apply length_filter. Qed.

End Grouping.

End RankingFacts.

(** ** More on the insight generator *)

Module InsightMore.
Import Store CIPEngineROI Groups Order.

Section TopGroups.
Context (key : ProjectionRow -> option string) (field : Aggregate -> Q).

Lemma qualifying_elem (rows : list ProjectionRow) (a : Aggregate) :
  a ∈ filter (fun a => 3 <= agg_count a) (group_by key rows) <->
  exists k, (3 <= group_count key k rows)%nat /\ a = aggregate k (group_rows key k rows).
Proof.
  rewrite list_elem_of_filter, RankingFacts.group_by_elem. split.
  - intros (H3 & k & Hk & ->). exists k. split; [|reflexivity].
    cbn [agg_count aggregate] in H3. unfold group_count, group_rows in *. lia.
  - intros (k & H3 & ->). split.
    + cbn [agg_count aggregate]. unfold group_count, group_rows in *. lia.
    + exists k. split; [|reflexivity]. apply RankingFacts.group_count_pos. lia.
Qed.

(** The ranking is empty exactly when no group has 3 rows. *)
Lemma top_groups_nonempty (rows : list ProjectionRow) :
  top_groups key field rows <> [] <-> exists k, (3 <= group_count key k rows)%nat.
Proof.
  unfold top_groups. rewrite RankingFacts.ordered_nil. split.
  - intros H.
    destruct (filter (fun a => 3 <= agg_count a) (group_by key rows)) as [|a l] eqn:E;
      [contradiction|].
    assert (Ha : a ∈ filter (fun a => 3 <= agg_count a) (group_by key rows))
      by (rewrite E; left).
    apply qualifying_elem in Ha as (k & Hk & _). eauto.
  - intros (k & Hk) E.
    assert (Ha : aggregate k (group_rows key k rows)
                 ∈ filter (fun a => 3 <= agg_count a) (group_by key rows))
      by (apply qualifying_elem; eauto).
    rewrite E in Ha. now apply elem_of_nil in Ha.
Qed.

(** The first row of the ranking is a group of 3 rows or more whose mean
    is not below that of any other such group. *)
Lemma top_groups_head (rows : list ProjectionRow) (best : Aggregate)
    (rest : list Aggregate) :
  top_groups key field rows = best :: rest ->
  exists k, best = aggregate k (group_rows key k rows) /\
    (3 <= group_count key k rows)%nat /\
    forall k', (3 <= group_count key k' rows)%nat ->
      (field (aggregate k' (group_rows key k' rows)) <= field best)%Q.
Proof.
  unfold top_groups. intros H.
  apply RankingFacts.ordered_head_max in H as [Hin Hmax].
  apply qualifying_elem in Hin as (k & Hk & ->).
  exists k. split; [reflexivity|]. split; [exact Hk|].
  intros k' Hk'. apply Hmax, qualifying_elem. eauto.
Qed.

End TopGroups.

Lemma new_insights_elem (rows : list ProjectionRow) (i : Insight) :
  i ∈ new_insights rows <->
  (exists best rest, top_processes rows = best :: rest /\ i = process_insight best) \/
  (exists best rest, top_industries rows = best :: rest /\ i = industry_insight best).
Proof.
  unfold new_insights. rewrite elem_of_app. split.
  - intros [H|H].
    + destruct (top_processes rows) as [|best rest]; [now apply elem_of_nil in H|].
      apply list_elem_of_singleton in H. left. eauto.
    + destruct (top_industries rows) as [|best rest]; [now apply elem_of_nil in H|].
      apply list_elem_of_singleton in H. right. eauto.
  - intros [(best & rest & -> & ->)|(best & rest & -> & ->)]; [left | right];
      apply list_elem_of_singleton; reflexivity.
Qed.

(** [analyze_patterns] keeps the insights there are and appends at most
    two: one of type best_roi_process exactly when some process name has 3
    projections or more, then one of type best_savings_industry exactly
    when some industry has. *)
Theorem analysis_inserts_iff (db : Database) :
  let rows := roi_projections db in
  let inserted := new_insights rows in
  roi_insights (analyze_patterns db) = roi_insights db ++ inserted /\
  (length inserted <= 2)%nat /\
  ((exists i, i ∈ inserted /\ insight_type i = "best_roi_process"%string) <->
     exists name, (3 <= process_count name rows)%nat) /\
  ((exists i, i ∈ inserted /\ insight_type i = "best_savings_industry"%string) <->
     exists ind, (3 <= industry_count ind rows)%nat).
Proof.
  cbv zeta. split; [reflexivity|]. split; [apply RunsProps.new_insights_length|].
  unfold process_count, industry_count.
  rewrite <- (top_groups_nonempty process_column agg_avg_roi),
    <- (top_groups_nonempty row_industry agg_avg_savings).
  change (top_groups process_column agg_avg_roi (roi_projections db))
    with (top_processes (roi_projections db)).
  change (top_groups row_industry agg_avg_savings (roi_projections db))
    with (top_industries (roi_projections db)).
  split; split.
  - intros (i & Hi & Ht). apply new_insights_elem in Hi
      as [(best & rest & E & ->)|(best & rest & E & ->)]; [|discriminate Ht].
    rewrite E. discriminate.
  - intros H. destruct (top_processes (roi_projections db)) as [|best rest] eqn:E;
      [contradiction|].
    exists (process_insight best). split; [|reflexivity].
    apply new_insights_elem. left. eauto.
  - intros (i & Hi & Ht). apply new_insights_elem in Hi
      as [(best & rest & E & ->)|(best & rest & E & ->)]; [discriminate Ht|].
    rewrite E. discriminate.
  - intros H. destruct (top_industries (roi_projections db)) as [|best rest] eqn:E;
      [contradiction|].
    exists (industry_insight best). split; [|reflexivity].
    apply new_insights_elem. right. eauto.
Qed.

(** The process insight names a process with 3 projections or more, with
    their number and their mean ROI and savings, and no process with 3
    projections or more has a higher mean ROI; the industry insight
    likewise names an industry with 3 projections or more of the highest
    mean savings. *)
Theorem best_insight_is_best (rows : list ProjectionRow) (i : Insight) :
  i ∈ new_insights rows ->
  (insight_type i = "best_roi_process"%string ->
     (3 <= process_count (supporting_subject i) rows)%nat /\
     supporting_count i = Z.of_nat (process_count (supporting_subject i) rows) /\
     supporting_avg_roi i = mean_roi process_column (supporting_subject i) rows /\
     supporting_avg_savings i = mean_savings process_column (supporting_subject i) rows /\
     forall name, (3 <= process_count name rows)%nat ->
       (mean_roi process_column name rows <= supporting_avg_roi i)%Q) /\
  (insight_type i = "best_savings_industry"%string ->
     (3 <= industry_count (supporting_subject i) rows)%nat /\
     supporting_count i = Z.of_nat (industry_count (supporting_subject i) rows) /\
     supporting_avg_roi i = mean_roi row_industry (supporting_subject i) rows /\
     supporting_avg_savings i = mean_savings row_industry (supporting_subject i) rows /\
     forall ind, (3 <= industry_count ind rows)%nat ->
       (mean_savings row_industry ind rows <= supporting_avg_savings i)%Q).
Proof.
  intros Hi. apply new_insights_elem in Hi
    as [(best & rest & E & ->)|(best & rest & E & ->)].
  - split; [intros _ | discriminate].
    apply top_groups_head in E as (k & -> & Hk & Hmax).
    cbn [process_insight supporting_subject supporting_count supporting_avg_roi
         supporting_avg_savings agg_key agg_count agg_avg_roi agg_avg_savings aggregate].
    repeat split; try assumption; intros name Hn; apply (Hmax name Hn).
  - split; [discriminate | intros _].
    apply top_groups_head in E as (k & -> & Hk & Hmax).
    cbn [industry_insight supporting_subject supporting_count supporting_avg_roi
         supporting_avg_savings agg_key agg_count agg_avg_roi agg_avg_savings aggregate].
    repeat split; try assumption; intros ind Hn; apply (Hmax ind Hn).
Qed.

Lemma best_insight_is_best_witness :
  exists i, i ∈ new_insights ten_rows /\
    supporting_subject i = "Returns"%string /\ supporting_count i = 3 /\
    (mean_roi process_column "Payroll" ten_rows <= supporting_avg_roi i)%Q.
Proof.
  exists (process_insight (aggregate "Returns" (group_rows process_column "Returns" ten_rows))).
  assert (Hin : process_insight (aggregate "Returns"
                                   (group_rows process_column "Returns" ten_rows))
                ∈ new_insights ten_rows) by (vm_compute; left).
  destruct (best_insight_is_best ten_rows _ Hin) as (Hp & _).
  destruct (Hp eq_refl) as (_ & Hc & _ & _ & Hmax).
  split; [exact Hin|]. split; [reflexivity|]. split; [rewrite Hc; reflexivity|].
  apply Hmax. vm_compute. lia.
Defined.

End InsightMore.

(** ** Ranked query results: the report and the statistics *)

Module ResultFacts.
Import Store CIPEngineROI Groups Order.

Section Limit.
Context (key : ProjectionRow -> option string) (field : Aggregate -> Q) (n : nat).

Abbreviation result := (ranked key field n).

Lemma result_elem (rows : list ProjectionRow) (a : Aggregate) :
  a ∈ result rows ->
  exists k, a = aggregate k (group_rows key k rows) /\ (1 <= group_count key k rows)%nat.
Proof.
  intros H. unfold ranked in H. apply subseteq_take in H.
  rewrite (RankingFacts.order_by_desc_perm field) in H.
  apply RankingFacts.group_by_elem in H as (k & Hk & ->).
  exists k. split; [reflexivity|]. now apply RankingFacts.group_count_pos.
Qed.

Lemma result_nodup (rows : list ProjectionRow) : NoDup (map agg_key (result rows)).
Proof.
  unfold ranked. change (map agg_key) with (fmap (M:=list) agg_key).
  rewrite fmap_take.
  eapply sublist_NoDup; [|apply sublist_take].
  rewrite (RankingFacts.order_by_desc_perm field).
  apply RankingFacts.group_by_nodup.
Qed.

(** A group left out by the limit ranks no higher than the groups kept. *)
Lemma result_cut (rows : list ProjectionRow) (k : string) (a : Aggregate) :
  (1 <= group_count key k rows)%nat -> k ∉ map agg_key (result rows) ->
  a ∈ result rows ->
  (field (aggregate k (group_rows key k rows)) <= field a)%Q.
Proof.
  intros Hk Hout Ha. unfold ranked in *.
  set (sorted := order_by_desc field (group_by key rows)) in *.
  assert (Hg : aggregate k (group_rows key k rows) ∈ sorted).
  { unfold sorted. rewrite (RankingFacts.order_by_desc_perm field).
    apply RankingFacts.group_by_elem. exists k. split; [|reflexivity].
    now apply RankingFacts.group_count_pos. }
  rewrite <- (take_drop n sorted) in Hg. apply elem_of_app in Hg as [Hg|Hg].
  - exfalso. apply Hout.
    change k with (agg_key (aggregate k (group_rows key k rows))).
    apply list_elem_of_fmap. eauto.
  - apply (RankingFacts.sorted_take_drop field n sorted a _
             (RankingFacts.order_by_desc_sorted field _) Ha Hg).
Qed.

Lemma total_count_perm (l1 l2 : list Aggregate) :
  Permutation l1 l2 -> total_count l1 = total_count l2.
Proof.
  unfold total_count.
  induction 1 as [|a l1 l2 _ IH|a b l|l1 l2 l3 _ IH1 _ IH2]; cbn [foldr]; lia.
Qed.

Lemma total_count_take (m : nat) (l : list Aggregate) :
  Forall (fun a => 0 <= agg_count a) l -> 0 <= total_count (take m l) <= total_count l.
Proof.
  unfold total_count. intros H. revert m.
  induction H as [|a l Ha _ IH]; intros [|m]; cbn [take foldr]; try lia.
  - specialize (IH 0%nat). cbn [take foldr] in IH. lia.
  - specialize (IH m). lia.
Qed.

Lemma group_count_omap (rows : list ProjectionRow) (k : string) :
  group_count key k rows = length (filter (fun y => y = k) (omap key rows)).
Proof.
  unfold group_count. induction rows as [|r rows IH]; [reflexivity|].
  assert (E : omap key (r :: rows)
              = match key r with Some y => y :: omap key rows | None => omap key rows end)
    by reflexivity.
  rewrite E. clear E.
  destruct (key r) as [y|] eqn:Hy.
  - destruct (decide (y = k)) as [->|Hne].
    + rewrite filter_cons_True by exact Hy.
      rewrite (filter_cons_True (fun y => y = k)) by reflexivity. cbn. now rewrite IH.
    + rewrite filter_cons_False by congruence.
      now rewrite (filter_cons_False (fun y => y = k)) by exact Hne.
  - rewrite filter_cons_False by congruence. exact IH.
Qed.

Lemma sum_indicator (ks : list string) (y : string) :
  NoDup ks -> y ∈ ks ->
  sum_list (map (fun k => if decide (y = k) then 1%nat else 0%nat) ks) = 1%nat.
Proof.
  induction 1 as [|k ks Hk Hnd IH]; intros Hy; [now apply elem_of_nil in Hy|].
  cbn. destruct (decide (y = k)) as [->|Hne].
  - assert (Z : sum_list (map (fun k' => if decide (k = k') then 1%nat else 0%nat) ks) = 0%nat).
    { clear IH Hnd Hy. induction ks as [|k' ks IH]; [reflexivity|].
      cbn. destruct (decide (k = k')) as [->|_].
      - exfalso. apply Hk. left.
      - apply IH. intros H. apply Hk. now right. }
    now rewrite Z.
  - apply elem_of_cons in Hy as [->|Hy]; [contradiction|]. now rewrite IH.
Qed.

Lemma sum_occurrences (ks ys : list string) :
  NoDup ks -> (forall y, y ∈ ys -> y ∈ ks) ->
  sum_list (map (fun k => length (filter (fun y => y = k) ys)) ks) = length ys.
Proof.
  intros Hnd. induction ys as [|y ys IH]; intros Hin.
  - clear. induction ks as [|k ks IHk]; [reflexivity | exact IHk].
  - assert (E : sum_list (map (fun k => length (filter (fun y0 => y0 = k) (y :: ys))) ks)
                = (sum_list (map (fun k => if decide (y = k) then 1 else 0) ks)
                   + sum_list (map (fun k => length (filter (fun y0 => y0 = k) ys)) ks))%nat).
    { clear. induction ks as [|k ks IHk]; [reflexivity|]. cbn [map sum_list].
      rewrite IHk. destruct (decide (y = k)) as [->|Hne].
      - rewrite (filter_cons_True (fun y0 => y0 = k)) by reflexivity.
        cbn [length]. unfold id. lia.
      - rewrite (filter_cons_False (fun y0 => y0 = k)) by exact Hne.
        cbn [length]. unfold id. lia. }
    rewrite E, sum_indicator, IH; [reflexivity | | exact Hnd |].
    + intros y' Hy'. apply Hin. now right.
    + apply Hin. left.
Qed.

(** The counts of the groups add up to the rows that have a key. *)
Lemma total_count_groups (rows : list ProjectionRow) :
  total_count (group_by key rows) = Z.of_nat (length (omap key rows)).
Proof.
  rewrite <- (sum_occurrences (remove_dups (omap key rows)) (omap key rows)).
  - unfold group_by. induction (remove_dups (omap key rows)) as [|k ks IH];
      [reflexivity|].
    cbn [map total_count foldr sum_list agg_count aggregate].
    fold (total_count (map (fun k => aggregate k (filter (fun r => key r = Some k) rows)) ks)).
    rewrite IH, Nat2Z.inj_add. f_equal. f_equal. apply group_count_omap.
  - apply NoDup_remove_dups.
  - intros y Hy. now apply elem_of_remove_dups.
Qed.

Lemma total_count_result (rows : list ProjectionRow) :
  0 <= total_count (result rows) <= Z.of_nat (length (omap key rows)).
Proof.
  unfold ranked. rewrite <- total_count_groups.
  rewrite <- (total_count_perm _ _ (RankingFacts.order_by_desc_perm field (group_by key rows))).
  apply total_count_take. apply Forall_forall. intros a Ha.
  rewrite (RankingFacts.order_by_desc_perm field) in Ha.
  apply RankingFacts.group_by_elem in Ha as (k & _ & ->). cbn. lia.
Qed.

(** What a ranked result is: at most [n] rows, in descending order, one
    per group, each a real group with its count and means. *)
Lemma result_ranked (rows : list ProjectionRow) :
  (length (result rows) <= n)%nat /\
  StronglySorted (desc field) (result rows) /\
  NoDup (map agg_key (result rows)) /\
  (forall a, a ∈ result rows ->
     (1 <= group_count key (agg_key a) rows)%nat /\
     a = aggregate (agg_key a) (group_rows key (agg_key a) rows)).
Proof.
  split; [unfold ranked; rewrite length_take; lia|].
  split; [apply RankingFacts.sorted_take, RankingFacts.order_by_desc_sorted|].
  split; [apply result_nodup|].
  intros a Ha. apply result_elem in Ha as (k & -> & Hk). now split.
Qed.

End Limit.

End ResultFacts.

(** ** The monthly report and the statistics endpoint *)

Module ReportProps.
Import Store CIPEngineROI Groups Order.

Lemma or_zero_mean (l : list Q) :
  (Report.or_zero (Report.sql_avg l) * inject_Z (Z.of_nat (length l)) == Qsum l)%Q.
Proof.
  destruct l as [|x l]; [reflexivity|].
  cbn [Report.sql_avg Report.or_zero].
  pose proof (AggregatorProps.count_pos _ (x :: l) ltac:(discriminate)) as Hn.
  assert (E : (avg (x :: l) * inject_Z (Z.of_nat (length (x :: l))) == Qsum (x :: l))%Q).
  { unfold avg. field. lra. }
  destruct (Py.Qtruthy (avg (x :: l))) eqn:Ht; [exact E|].
  unfold Py.Qtruthy in Ht. apply negb_false_iff, Qeq_bool_iff in Ht.
  rewrite Ht in E. rewrite <- E. ring.
Qed.

(** The report and the statistics endpoint give the number of stored
    projections and the same two means; each mean times the number of
    projections is the sum of the column, and on an empty table the means
    are 0. *)
Theorem totals_and_means (recent : list Insight) (db : Database) :
  let rows := roi_projections db in
  let rep := Report.generate_monthly_report recent db in
  let st := Stats.get_stats db in
  Report.total_projections rep = Z.of_nat (length rows) /\
  Stats.total_projections st = Z.of_nat (length rows) /\
  Stats.avg_annual_savings st = Report.avg_annual_savings rep /\
  Stats.avg_roi_percentage st = Report.avg_roi_percentage rep /\
  (Report.avg_annual_savings rep * inject_Z (Z.of_nat (length rows))
   == Qsum (map row_annual_savings rows))%Q /\
  (Report.avg_roi_percentage rep * inject_Z (Z.of_nat (length rows))
   == Qsum (map row_roi_percentage rows))%Q /\
  (rows = [] ->
   Report.avg_annual_savings rep = 0%Q /\ Report.avg_roi_percentage rep = 0%Q).
Proof.
  cbv zeta. cbn [Report.generate_monthly_report Report.total_projections
    Report.avg_annual_savings Report.avg_roi_percentage Stats.get_stats
    Stats.total_projections Stats.avg_annual_savings Stats.avg_roi_percentage].
  repeat split.
  - rewrite <- (length_map row_annual_savings) at 1. apply or_zero_mean.
  - rewrite <- (length_map row_roi_percentage) at 1. apply or_zero_mean.
  - now rewrite H.
  - now rewrite H.
Qed.

Lemma totals_and_means_witness :
  Report.avg_annual_savings (Report.generate_monthly_report [] empty_db) = 0%Q /\
  Stats.total_projections (Stats.get_stats empty_db) = 0.
Proof.
  destruct (totals_and_means [] empty_db) as (_ & Ht & _ & _ & _ & _ & Hz).
  split; [apply Hz; reflexivity | exact Ht].
Defined.

(** The processes of the report: at most 10, by mean ROI from the highest
    down, one entry per process name, each with the number of its
    projections and their means; a process left out has a mean ROI no
    higher than any process listed. *)
Theorem report_processes_ranked (recent : list Insight) (db : Database) :
  let rows := roi_projections db in
  let top := Report.top_processes (Report.generate_monthly_report recent db) in
  (length top <= 10)%nat /\
  StronglySorted (desc agg_avg_roi) top /\
  NoDup (map agg_key top) /\
  (forall a, a ∈ top ->
     (1 <= process_count (agg_key a) rows)%nat /\
     agg_count a = Z.of_nat (process_count (agg_key a) rows) /\
     agg_avg_roi a = mean_roi process_column (agg_key a) rows /\
     agg_avg_savings a = mean_savings process_column (agg_key a) rows) /\
  (forall name a,
     (1 <= process_count name rows)%nat -> name ∉ map agg_key top -> a ∈ top ->
     (mean_roi process_column name rows <= agg_avg_roi a)%Q).
Proof.
  cbv zeta. cbn [Report.generate_monthly_report Report.top_processes].
  change (Report.report_processes (roi_projections db))
    with (ranked process_column agg_avg_roi 10 (roi_projections db)).
  destruct (ResultFacts.result_ranked process_column agg_avg_roi 10 (roi_projections db))
    as (Hlen & Hsorted & Hnd & Helem).
  split; [exact Hlen|]. split; [exact Hsorted|]. split; [exact Hnd|]. split.
  - intros a Ha. destruct (Helem a Ha) as (Hc & Ea).
    split; [exact Hc|]. rewrite Ea at 1 3 5. repeat split.
  - intros name a Hn Hout Ha.
    apply (ResultFacts.result_cut process_column agg_avg_roi 10 _ name a Hn Hout Ha).
Qed.

Lemma report_processes_ranked_witness :
  map agg_key (Report.top_processes (Report.generate_monthly_report [] (db_of ten_rows)))
  = ["Returns"; "Payroll"; "Filing"]%string /\
  (forall a, a ∈ Report.top_processes (Report.generate_monthly_report [] (db_of ten_rows)) ->
     1 <= agg_count a).
Proof.
  destruct (report_processes_ranked [] (db_of ten_rows)) as (_ & _ & _ & Helem & _).
  split; [vm_compute; reflexivity|].
  intros a Ha. destruct (Helem a Ha) as (Hc & Ecount & _). rewrite Ecount. lia.
Defined.

(** Market opportunities: at most 3, each one of the three processes of
    highest mean ROI, with 5 projections or more and a potential revenue
    of 8000 per projection; at most one recommendation, given exactly when
    there is an opportunity; with fewer than 5 stored projections there is
    neither. *)
Theorem market_opportunities_facts (recent : list Insight) (db : Database) :
  let rows := roi_projections db in
  let rep := Report.generate_monthly_report recent db in
  (length (Report.report_opportunities rep) <= 3)%nat /\
  (forall o, o ∈ Report.report_opportunities rep ->
     exists a, a ∈ take 3 (Report.top_processes rep) /\ o = Report.opportunity_of a /\
       5 <= Report.market_size o /\
       Report.market_size o = Z.of_nat (process_count (agg_key a) rows) /\
       Report.potential_revenue o = 8000 * Report.market_size o /\
       40000 <= Report.potential_revenue o) /\
  (length (Report.recommendations rep) <= 1)%nat /\
  (Report.recommendations rep = [] <-> Report.report_opportunities rep = []) /\
  ((length rows < 5)%nat ->
   Report.report_opportunities rep = [] /\ Report.recommendations rep = []).
Proof.
  cbv zeta. cbn [Report.generate_monthly_report Report.top_processes
    Report.report_opportunities Report.recommendations].
  set (top := Report.report_processes (roi_projections db)).
  assert (Hreal : forall a, a ∈ take 3 top ->
            agg_count a = Z.of_nat (process_count (agg_key a) (roi_projections db))).
  { intros a Ha. apply subseteq_take in Ha.
    destruct (ResultFacts.result_ranked process_column agg_avg_roi 10 (roi_projections db))
      as (_ & _ & _ & Helem).
    destruct (Helem a Ha) as (_ & Ea). rewrite Ea at 1. reflexivity. }
  assert (Helem : forall o, o ∈ Report.market_opportunities top ->
            exists a, a ∈ take 3 top /\ 5 <= agg_count a /\ o = Report.opportunity_of a).
  { intros o Ho. unfold Report.market_opportunities in Ho.
    apply list_elem_of_fmap in Ho as (a & -> & Ha).
    apply list_elem_of_filter in Ha as [H5 Ha]. eauto. }
  assert (Hrec : Report.generate_recommendations (Report.market_opportunities top) = [] <->
                 Report.market_opportunities top = []).
  { destruct (Report.market_opportunities top); cbn; split; congruence. }
  split; [|split; [|split; [|split; [exact Hrec|]]]].
  - unfold Report.market_opportunities. rewrite length_map.
    etransitivity; [apply length_filter|]. rewrite length_take. lia.
  - intros o Ho. destruct (Helem o Ho) as (a & Ha & H5 & ->).
    exists a. cbn [Report.opportunity_of Report.market_size Report.potential_revenue].
    repeat split; try assumption; try lia. now apply Hreal.
  - destruct (Report.market_opportunities top); cbn; lia.
  - intros Hlt.
    assert (Hnone : Report.market_opportunities top = []).
    { destruct (Report.market_opportunities top) as [|o l] eqn:E; [reflexivity|].
      exfalso. destruct (Helem o ltac:(left)) as (a & Ha & H5 & _).
      rewrite (Hreal a Ha) in H5.
      pose proof (RankingFacts.group_count_le process_column (roi_projections db) (agg_key a)).
      unfold process_count in H5. lia. }
    split; [exact Hnone | now apply Hrec].
Qed.

Lemma market_opportunities_facts_witness :
  Report.recommendations (Report.generate_monthly_report [] (db_of payroll_rows)) = [] /\
  Report.recommendations (Report.generate_monthly_report [] (db_of ten_rows))
  = ["BUILD: Build Payroll AI template - 6 companies need this ($48,000 potential revenue)"%string].
Proof.
  destruct (market_opportunities_facts [] (db_of payroll_rows)) as (_ & _ & _ & _ & Hfew).
  split; [apply Hfew; vm_compute; lia | vm_compute; reflexivity].
Defined.

Lemma omap_length_le (A B : Type) (f : A -> option B) (l : list A) :
  (length (omap f l) <= length l)%nat.
Proof.
  induction l as [|x l IH]; [reflexivity|].
  assert (E : omap f (x :: l)
              = match f x with Some y => y :: omap f l | None => omap f l end)
    by reflexivity.
  rewrite E. destruct (f x); cbn [length]; lia.
Qed.

(** The industries of the statistics endpoint: at most 5, by mean savings
    from the highest down, one entry per industry, each with the number of
    its projections and their mean savings; projections with no industry
    are in no entry, so the counts add up to at most the number of
    projections that have one. *)
Theorem stats_industries_ranked (db : Database) :
  let rows := roi_projections db in
  let top := Stats.top_industries (Stats.get_stats db) in
  (length top <= 5)%nat /\
  StronglySorted (desc agg_avg_savings) top /\
  NoDup (map agg_key top) /\
  (forall a, a ∈ top ->
     (1 <= industry_count (agg_key a) rows)%nat /\
     agg_count a = Z.of_nat (industry_count (agg_key a) rows) /\
     agg_avg_savings a = mean_savings row_industry (agg_key a) rows) /\
  0 <= total_count top <= Z.of_nat (length (omap row_industry rows)) /\
  total_count top <= Stats.total_projections (Stats.get_stats db).
Proof.
  cbv zeta. cbn [Stats.get_stats Stats.top_industries Stats.total_projections].
  change (Stats.stats_industries (roi_projections db))
    with (ranked row_industry agg_avg_savings 5 (roi_projections db)).
  destruct (ResultFacts.result_ranked row_industry agg_avg_savings 5 (roi_projections db))
    as (Hlen & Hsorted & Hnd & Helem).
  pose proof (ResultFacts.total_count_result row_industry agg_avg_savings 5
                (roi_projections db)) as Htotal.
  split; [exact Hlen|]. split; [exact Hsorted|]. split; [exact Hnd|].
  split; [|split; [exact Htotal|]].
  - intros a Ha. destruct (Helem a Ha) as (Hc & Ea).
    split; [exact Hc|]. rewrite Ea at 1 3. repeat split.
  - pose proof (omap_length_le _ _ row_industry (roi_projections db)). lia.
Qed.

Lemma stats_industries_ranked_witness :
  map agg_key (Stats.top_industries (Stats.get_stats (db_of ten_rows)))
  = ["Legal"; "Retail"]%string /\
  total_count (Stats.top_industries (Stats.get_stats (db_of ten_rows))) <= 10.
Proof.
  destruct (stats_industries_ranked (db_of ten_rows)) as (_ & _ & _ & _ & _ & Htotal).
  split; [vm_compute; reflexivity | exact Htotal].
Defined.

End ReportProps.

(** ** The estimator in binary64 *)

Module Binary64Props.
Import Binary64 EstimatorB64.







(** The float written 1111.111111111111 is the binary64 number nearest to
    that decimal: they differ by less than half a unit in the last place,
    2 ^ -43. *)
Lemma lit_1111_nearest :
  exists v, value lit_1111 = Some v /\
    (v - (1111111111111111 # 1000000000000) < 1 # (2 ^ 43))%Q /\
    ((1111111111111111 # 1000000000000) - v < 1 # (2 ^ 43))%Q.
Proof. eexists. split; [reflexivity|]. split; vm_compute; reflexivity. Qed.


(** On the example of the specification no operation rounds, and the two
    readings of the estimator give the same numbers. *)
Example readings_agree_on_the_example :
  exists r q_savings q_roi,
    calculate_roi invoice_processing = Ok r /\
    value (annual_savings r) = Some q_savings /\
    value (roi_percentage r) = Some q_roi /\
    (q_savings == Estimator.annual_savings
                    (Estimator.project Estimator.invoice_processing "Invoice Processing"))%Q /\
    (q_roi == Estimator.roi_percentage
                (Estimator.project Estimator.invoice_processing "Invoice Processing"))%Q /\
    breakeven_months r
    = Estimator.breakeven_months
        (Estimator.project Estimator.invoice_processing "Invoice Processing").
Proof.
  eexists. eexists. eexists. split; [vm_compute; reflexivity|].
  split; [reflexivity|]. split; [reflexivity|].
  repeat split; vm_compute; reflexivity.
Qed.

(** An integer too large for a float passes the test on the required
    fields and makes the first product of the handler raise OverflowError:
    no projection is returned. *)
Theorem overflow_raises (data : ProjectionInput) (name : string) :
  process_name data = Some name -> name <> EmptyString ->
  hours_per_week data <> 0 -> eqb (hourly_cost data) zero = false ->
  of_int (hours_per_week data) = inl OverflowError \/
  of_int (people_count data) = inl OverflowError ->
  calculate_roi data = Raised OverflowError.
Proof.
  intros Hname Hne Hh Hc Hover. unfold calculate_roi. rewrite Hname.
  apply PyFacts.truthy_true in Hne. rewrite Hne.
  apply Z.eqb_neq in Hh. rewrite Hh, Hc. cbn [negb orb].
  destruct Hover as [H|H].
  - now rewrite H.
  - rewrite H. destruct (of_int (hours_per_week data)) as [e|hours] eqn:E;
      [|reflexivity].
    cbn [and_then]. f_equal. unfold of_int in E.
    destruct (of_Z (hours_per_week data)); congruence.
Qed.

Lemma overflow_raises_witness :
  calculate_roi endless_hours = Raised OverflowError /\
  of_int (2 ^ 1024) = inl OverflowError /\
  of_int (2 ^ 1024 - 2 ^ 971) = inr (SpecFloat.S754_finite false (2 ^ 53 - 1) 971).
Proof.
  split; [|split; vm_compute; reflexivity].
  apply (overflow_raises endless_hours "Filing"); try reflexivity.
  - discriminate.
  - vm_compute. discriminate.
  - left. vm_compute. reflexivity.
Defined.

End Binary64Props.
